(** * Embedding service (BGE-m3-ko + Milvus): request handlers over a
      vector store

    A shallow embedding of [embedding_model.py], [milvus_manager.py],
    [schemas.py] and [main.py].

    - Python exceptions are values of [exn]; a call either returns or
      raises ([result]).
    - The Milvus server behind [AsyncMilvusClient] is state of type [S]
      threaded through every call; next to it the handlers carry the
      list of calls made to the two collaborators (the [trace]), so that
      "which calls were issued, with which arguments" is a statement
      about a value.
    - [await] is sequencing: every handler body is a straight sequence of
      awaited calls.
    - [logger.info] calls are left out: they return nothing and change
      nothing the handlers read. *)

From Stdlib Require Import ZArith Floats.PrimFloat.
From stdpp Require Import base option list gmap strings pretty.

Local Open Scope Z_scope.
Local Open Scope string_scope.
Local Open Scope list_scope.

(** ** Values *)

(** [List[float]] *)
Definition vector : Type := list float.

Set Warnings "-register-all".

(** [Any] as it occurs in [metadata] and in the entities the store
    returns: a JSON document. *)
Inductive json : Type :=
| JNull
| JBool (b : bool)
| JInt (z : Z)
| JFloat (f : float)
| JStr (s : string)
| JArr (items : list json)
| JObj (fields : list (string * json)).

Set Warnings "register-all".

(** [Dict[str, Any]] of a [metadata] field, keys in insertion order. *)
Definition document : Type := list (string * json).

(** ** Exceptions and results *)

Inductive exn : Type :=
| HTTPException (status_code : Z) (detail : string)   (* fastapi *)
| ValueError (msg : string)
| AttributeError (msg : string)
| ValidationError (msg : string)                      (* pydantic *)
| MilvusException (code : Z) (message : string)       (* pymilvus *)
| ConnectionError (msg : string).

(** [isinstance(e, ValueError)], with [str(e)] when it holds: pydantic's
    [ValidationError] is a subclass of [ValueError]; the other classes
    are not. *)
Definition as_ValueError (e : exn) : option string :=
  match e with
  | ValueError msg | ValidationError msg => Some msg
  | _ => None
  end.

Inductive result (A : Type) : Type :=
| Return (a : A)
| Raise (e : exn).
Arguments Return {A} a.
Arguments Raise {A} e.

(** What FastAPI answers: 200 for a returned value, the status of a
    raised [HTTPException], 500 for any other exception that leaves the
    handler. *)
Definition status_code_of {A} (r : result A) : Z :=
  match r with
  | Return _ => 200
  | Raise (HTTPException status_code _) => status_code
  | Raise _ => 500
  end.

(** ** schemas.py *)

Record EmbedRequest := { er_text : string }.
Record EmbedBatchRequest := { ebr_texts : list string }.
Record EmbedResponse := { embedding : vector; dimension : Z }.
Record EmbedBatchResponse :=
  { embeddings : list vector; eb_dimension : Z; eb_count : Z }.

Record CollectionCreateRequest :=
  { ccr_name : string; ccr_dimension : Z; ccr_description : string }.
Record CollectionResponse := { collection : string; status : string }.

Record InsertItem :=
  { text : string;
    category : string;
    metadata : document;
    item_embedding : option vector }.
Record InsertRequest := { items : list InsertItem; auto_embed : bool }.
Record InsertResponse := { insert_count : Z }.

Record SearchRequest :=
  { query : string; sr_limit : Z; sr_output_fields : option (list string) }.
Record SearchByVectorRequest :=
  { query_vector : vector;
    svr_limit : Z;
    svr_output_fields : option (list string) }.
Record SearchHit :=
  { sh_id : Z;
    sh_distance : float;
    sh_text : string;
    sh_category : string;
    sh_metadata : document }.
Record SearchResponse := { results : list SearchHit; count : Z }.

(** ** What travels to and from the store *)

(** One element of the [data] list of [insert]: the dict with the keys
    ["text"], ["category"], ["metadata"], ["embedding"]. *)
Record Row :=
  { row_text : string;
    row_category : string;
    row_metadata : document;
    row_embedding : vector }.

Inductive DataType := INT64 | VARCHAR | JSON | FLOAT_VECTOR.

#[global] Instance DataType_eq_dec : EqDecision DataType.
Proof. solve_decision. Defined.

Record FieldSchema :=
  { field_name : string;
    datatype : DataType;
    is_primary : bool;
    field_auto_id : bool;
    max_length : option Z;
    dim : option Z;
    field_description : string }.

Record CollectionSchema :=
  { auto_id : bool; enable_dynamic_field : bool; fields : list FieldSchema }.

Record IndexParam :=
  { index_field : string; index_type : string; metric_type : string }.

(** What [client.insert] answers: a dict that may or may not have the
    key ["ids"]. *)
Record InsertResult := { res_insert_count : Z; res_ids : option (list Z) }.

(** What [MilvusManager.insert] answers: the dict with the keys
    ["insert_count"] and ["ids"]. *)
Record InsertSummary := { sum_insert_count : Z; sum_ids : list Z }.

(** One hit as [client.search] reports it. *)
Record Hit :=
  { hit_id : Z; hit_distance : float; hit_entity : gmap string json }.

(** One hit as [MilvusManager.search] reformats it (same three keys). *)
Record FormattedHit :=
  { fh_id : Z; fh_distance : float; fh_entity : gmap string json }.

(** ** The two collaborators *)

(** [SentenceTransformer]: its [encode] takes a string and gives one
    array, or takes a list and gives one array per row. The two uses are
    two fields; nothing in this repository relates them. *)
Record SentenceTransformer :=
  { st_encode : string → vector;
    st_encode_list : list string → list vector }.

(** [AsyncMilvusClient] over a server state [S]. Every call may raise
    and may change the server. [create_schema] and
    [prepare_index_params] only build values and are not calls. *)
Record AsyncMilvusClient (S : Type) :=
  { client_list_collections : S → result (list string) * S;
    client_create_collection :
      string → CollectionSchema → list IndexParam → string →
      S → result () * S;
    client_insert : string → list Row → S → result InsertResult * S;
    client_search :
      string → list vector → Z → list string → string →
      S → result (list (list Hit)) * S;
    client_drop_collection : string → S → result () * S }.
Arguments client_list_collections {S} _ _.
Arguments client_create_collection {S} _ _ _ _ _ _.
Arguments client_insert {S} _ _ _ _.
Arguments client_search {S} _ _ _ _ _ _ _.
Arguments client_drop_collection {S} _ _ _.

(** The calls the handlers make, in the order they are made. *)
Inductive Event : Type :=
| EvEncode (text : string)
| EvEncodeBatch (texts : list string)
| EvListCollections
| EvCreateCollection (name : string) (schema : CollectionSchema)
    (index_params : list IndexParam) (description : string)
| EvInsert (collection_name : string) (data : list Row)
| EvSearch (collection_name : string) (data : list vector) (limit : Z)
    (output_fields : list string) (metric : string)
| EvDropCollection (name : string).

Definition is_store_call (ev : Event) : bool :=
  match ev with
  | EvEncode _ | EvEncodeBatch _ => false
  | _ => true
  end.

(** ** Handler computations *)

Record World (S : Type) := { server : S; trace : list Event }.
Arguments server {S} _.
Arguments trace {S} _.
Arguments Build_World {S} _ _.

Definition M (S A : Type) : Type := World S → result A * World S.

Definition ret {S A} (a : A) : M S A := λ w, (Return a, w).

Definition raise {S A} (e : exn) : M S A := λ w, (Raise e, w).

Definition bind {S A B} (m : M S A) (k : A → M S B) : M S B :=
  λ w, match m w with
       | (Return a, w') => k a w'
       | (Raise e, w') => (Raise e, w')
       end.

(** [try: m  except <the exceptions h accepts>: h e] *)
Definition try_except {S A} (m : M S A) (h : exn → option (M S A)) : M S A :=
  λ w, match m w with
       | (Return a, w') => (Return a, w')
       | (Raise e, w') =>
           match h e with
           | Some handler => handler w'
           | None => (Raise e, w')
           end
       end.

(** Record a call. *)
Definition emit {S} (ev : Event) : M S () :=
  λ w, (Return (), {| server := server w; trace := trace w ++ [ev] |}).

(** Run one store call on the server. *)
Definition on_server {S A} (f : S → result A * S) : M S A :=
  λ w, let '(r, s') := f (server w) in
       (r, {| server := s'; trace := trace w |}).

Declare Scope handler_scope.
Delimit Scope handler_scope with handler.
Notation "'let*' x ':=' m 'in' k" := (bind m (λ x, k))
  (at level 10, x name, m at level 100, k at level 200) : handler_scope.
Local Open Scope handler_scope.

(** ** embedding_model.py *)

Module EmbeddingModel.

Definition DIMENSION : Z := 1024.
Definition MODEL_NAME : string := "dragonkue/BGE-m3-ko".

Section methods.
Context {S : Type}.
(** The class attribute [_model]. *)
Variable _model : option SentenceTransformer.

Definition is_loaded : bool :=
  match _model with Some _ => true | None => false end.

Definition encode (text : string) : M S vector :=
  match _model with
  | None =>
      raise (AttributeError "'NoneType' object has no attribute 'encode'")
  | Some m => let* _ := emit (EvEncode text) in ret (st_encode m text)
  end.

Definition encode_batch (texts : list string) : M S (list vector) :=
  match _model with
  | None =>
      raise (AttributeError "'NoneType' object has no attribute 'encode'")
  | Some m =>
      let* _ := emit (EvEncodeBatch texts) in
      ret ((λ v, v) <$> st_encode_list m texts)
  end.
End methods.

End EmbeddingModel.

(** ** milvus_manager.py *)

Module MilvusManager.

(** [schema.add_field] five times on the schema made by
    [create_schema(auto_id=True, enable_dynamic_field=False)]. *)
Definition collection_schema (dim : Z) : CollectionSchema :=
  {| auto_id := true;
     enable_dynamic_field := false;
     fields :=
       [ {| field_name := "id"; datatype := INT64; is_primary := true;
            field_auto_id := true; max_length := None; dim := None;
            field_description := "" |};
         {| field_name := "text"; datatype := VARCHAR; is_primary := false;
            field_auto_id := false; max_length := Some 2048; dim := None;
            field_description := "원본 텍스트" |};
         {| field_name := "category"; datatype := VARCHAR;
            is_primary := false; field_auto_id := false;
            max_length := Some 64; dim := None;
            field_description := "분류 카테고리" |};
         {| field_name := "metadata"; datatype := JSON; is_primary := false;
            field_auto_id := false; max_length := None; dim := None;
            field_description := "추가 메타데이터" |};
         {| field_name := "embedding"; datatype := FLOAT_VECTOR;
            is_primary := false; field_auto_id := false;
            max_length := None; dim := Some dim;
            field_description := pretty dim +:+ "차원 임베딩 벡터" |} ] |}.

Definition collection_index_params : list IndexParam :=
  [ {| index_field := "embedding"; index_type := "AUTOINDEX";
       metric_type := "COSINE" |} ].

Definition default_output_fields : list string :=
  ["text"; "category"; "metadata"].

Section methods.
Context {S : Type}.
(** The attribute [client]: [None] until [connect] has run. *)
Variable client : option (AsyncMilvusClient S).

(** [await self.client.<method>(...)]: on [None] the attribute
    lookup raises before anything is called. *)
Definition call {A} (method : string) (ev : Event)
    (f : AsyncMilvusClient S → S → result A * S) : M S A :=
  match client with
  | None =>
      raise (AttributeError
               ("'NoneType' object has no attribute '" +:+ method +:+ "'"))
  | Some c => let* _ := emit ev in on_server (f c)
  end.

Definition list_collections : M S (list string) :=
  call "list_collections" EvListCollections client_list_collections.

Definition create_collection (name : string) (dim : Z)
    (description : string) : M S CollectionResponse :=
  let* collections := list_collections in
  if bool_decide (name ∈ collections) then
    ret {| collection := name; status := "already_exists" |}
  else
    let schema := collection_schema dim in
    let index_params := collection_index_params in
    let* _ :=
      call "create_collection"
        (EvCreateCollection name schema index_params description)
        (λ c, client_create_collection c name schema index_params
                description) in
    ret {| collection := name; status := "created" |}.

(** The dict [{"insert_count": len(data), "ids": result.get("ids", [])}]. *)
Definition insert (collection_name : string) (data : list Row)
    : M S InsertSummary :=
  let* result :=
    call "insert" (EvInsert collection_name data)
      (λ c, client_insert c collection_name data) in
  ret {| sum_insert_count := Z.of_nat (length data);
         sum_ids := default [] (res_ids result) |}.

Definition format_hit (hit : Hit) : FormattedHit :=
  {| fh_id := hit_id hit;
     fh_distance := hit_distance hit;
     fh_entity := hit_entity hit |}.

Definition search (collection_name : string) (query_vectors : list vector)
    (limit : Z) (output_fields : option (list string))
    : M S (list (list FormattedHit)) :=
  let output_fields := default default_output_fields output_fields in
  let* results :=
    call "search"
      (EvSearch collection_name query_vectors limit output_fields "COSINE")
      (λ c, client_search c collection_name query_vectors limit
              output_fields "COSINE") in
  ret ((λ hits : list Hit, format_hit <$> hits) <$> results).

Definition drop_collection (name : string) : M S CollectionResponse :=
  let* _ :=
    call "drop_collection" (EvDropCollection name)
      (λ c, client_drop_collection c name) in
  ret {| collection := name; status := "dropped" |}.
End methods.

End MilvusManager.

(** ** main.py *)

Module Main.

Record ModelHealth :=
  { loaded : bool; model_name : string; model_dimension : Z }.
Record MilvusHealth := { connected : bool; collections : list string }.
Record HealthResponse :=
  { health_status : string; model : ModelHealth; milvus : MilvusHealth }.

(** Pydantic's check of a [str] field and of a [Dict[str, Any]] field
    when a [SearchHit] is built: a value of another shape is refused. *)
Definition validate_str {S} (field : string) (v : json) : M S string :=
  match v with
  | JStr s => ret s
  | _ => raise (ValidationError (field +:+ ": Input should be a valid string"))
  end.

Definition validate_dict {S} (field : string) (v : json) : M S document :=
  match v with
  | JObj d => ret d
  | _ =>
      raise (ValidationError
               (field +:+ ": Input should be a valid dictionary"))
  end.

Section handlers.
Context {S : Type}.
(** [app.state.model] (its [_model]) and [app.state.milvus] (its
    [client]), as [lifespan] left them. *)
Variable _model : option SentenceTransformer.
Variable client : option (AsyncMilvusClient S).

Definition health : M S HealthResponse :=
  let model_ok := EmbeddingModel.is_loaded _model in
  let milvus_ok := match client with Some _ => true | None => false end in
  let* probe :=
    if milvus_ok then
      try_except
        (let* milvus_collections := MilvusManager.list_collections client in
         ret (milvus_ok, milvus_collections))
        (λ _, Some (ret (false, [])))
    else ret (milvus_ok, [])
  in
  let '(milvus_ok, milvus_collections) := probe in
  ret {| health_status :=
           if model_ok && milvus_ok then "ok" else "degraded";
         model := {| loaded := model_ok;
                     model_name := EmbeddingModel.MODEL_NAME;
                     model_dimension := EmbeddingModel.DIMENSION |};
         milvus := {| connected := milvus_ok;
                      collections := milvus_collections |} |}.

Definition embed (req : EmbedRequest) : M S EmbedResponse :=
  let* vector := EmbeddingModel.encode _model (er_text req) in
  ret {| embedding := vector; dimension := EmbeddingModel.DIMENSION |}.

Definition embed_batch (req : EmbedBatchRequest) : M S EmbedBatchResponse :=
  match ebr_texts req with
  | [] => raise (HTTPException 400 "texts 배열이 비어있습니다.")
  | _ =>
      let* vectors := EmbeddingModel.encode_batch _model (ebr_texts req) in
      ret {| embeddings := vectors;
             eb_dimension := EmbeddingModel.DIMENSION;
             eb_count := Z.of_nat (length vectors) |}
  end.

Definition create_collection (req : CollectionCreateRequest)
    : M S CollectionResponse :=
  MilvusManager.create_collection client
    (ccr_name req) (ccr_dimension req) (ccr_description req).

Definition list_collections : M S (list string) :=
  MilvusManager.list_collections client.

Definition drop_collection (name : string) : M S CollectionResponse :=
  MilvusManager.drop_collection client name.

(** The [for item in req.items] loop of [insert]; [data] is the list
    built so far. *)
Fixpoint insert_loop (auto_embed : bool) (items : list InsertItem)
    (data : list Row) : M S (list Row) :=
  match items with
  | [] => ret data
  | item :: items =>
      let* embedding :=
        if auto_embed then EmbeddingModel.encode _model (text item)
        else
          match item_embedding item with
          | None =>
              raise (HTTPException 400
                "auto_embed=False일 때 각 item에 embedding이 필요합니다.")
          | Some embedding => ret embedding
          end
      in
      insert_loop auto_embed items
        (data ++ [ {| row_text := text item;
                      row_category := category item;
                      row_metadata := metadata item;
                      row_embedding := embedding |} ])
  end.

Definition insert (name : string) (req : InsertRequest)
    : M S InsertResponse :=
  let* data := insert_loop (auto_embed req) (items req) [] in
  let* result := MilvusManager.insert client name data in
  ret {| insert_count := sum_insert_count result |}.

(** [SearchHit(id=..., distance=..., text=entity.get("text", ""), ...)] *)
Definition search_hit (hit : FormattedHit) : M S SearchHit :=
  let entity := fh_entity hit in
  let* text := validate_str "text" (default (JStr "") (entity !! "text")) in
  let* category :=
    validate_str "category" (default (JStr "") (entity !! "category")) in
  let* metadata :=
    validate_dict "metadata" (default (JObj []) (entity !! "metadata")) in
  ret {| sh_id := fh_id hit;
         sh_distance := fh_distance hit;
         sh_text := text;
         sh_category := category;
         sh_metadata := metadata |}.

(** The [for hit in results[0]] loop; [hits] is the list built so far. *)
Fixpoint hits_loop (found : list FormattedHit) (hits : list SearchHit)
    : M S (list SearchHit) :=
  match found with
  | [] => ret hits
  | hit :: found =>
      let* h := search_hit hit in
      hits_loop found (hits ++ [h])
  end.

Definition search_response (results : list (list FormattedHit))
    : M S SearchResponse :=
  let* hits :=
    match results with
    | [] => ret []
    | first :: _ => hits_loop first []
    end
  in
  ret {| results := hits; count := Z.of_nat (length hits) |}.

(** [except ValueError as e: raise HTTPException(404, str(e))] *)
Definition value_error_to_404 {A} (e : exn) : option (M S A) :=
  match as_ValueError e with
  | Some msg => Some (raise (HTTPException 404 msg))
  | None => None
  end.

Definition search (name : string) (req : SearchRequest)
    : M S SearchResponse :=
  let* query_vector := EmbeddingModel.encode _model (query req) in
  let* results :=
    try_except
      (MilvusManager.search client name [query_vector] (sr_limit req)
         (sr_output_fields req))
      value_error_to_404
  in
  search_response results.

Definition search_by_vector (name : string) (req : SearchByVectorRequest)
    : M S SearchResponse :=
  let* results :=
    try_except
      (MilvusManager.search client name [query_vector req] (svr_limit req)
         (svr_output_fields req))
      value_error_to_404
  in
  search_response results.
End handlers.

End Main.

(** ** The vector store *)

Module Store.

(** Modelled from the spec: the storage backend behind
    [AsyncMilvusClient] (the pymilvus client and the Milvus server; only
    the calls made to them are in this repository). Sections 3 and 4.2
    of the specification: named collections, each with the schema and
    the dimension fixed at creation, rows with server-assigned
    increasing ids, [list], [create], [drop], [insert] and [search].
    What the specification leaves to the backend is a field of
    [Behaviour]: which exception reports a missing collection, whether
    dropping a missing collection is an error or a no-op, which
    exception reports a vector of the wrong length, and how the engine
    ranks rows against a query vector. *)
Record Behaviour :=
  { not_found : string → exn;
    drop_missing : string → option exn;
    bad_dimension : exn;
    nearest : string → vector → list (Z * Row) → list (Z * float * Row) }.

Record Stored :=
  { sc_schema : CollectionSchema;
    sc_index_params : list IndexParam;
    sc_description : string;
    sc_rows : list (Z * Row) }.

(** The declared dimension: the [dim] of the vector field. *)
Definition schema_dim (schema : CollectionSchema) : option Z :=
  match filter (λ f, datatype f = FLOAT_VECTOR) (fields schema) with
  | f :: _ => dim f
  | [] => None
  end.

Definition has_dimension (schema : CollectionSchema) (v : vector) : bool :=
  match schema_dim schema with
  | Some d => bool_decide (Z.of_nat (length v) = d)
  | None => true
  end.

Definition row_entity (output_fields : list string) (row : Row)
    : gmap string json :=
  filter (λ kv, kv.1 ∈ output_fields)
    (<["text" := JStr (row_text row)]>
       (<["category" := JStr (row_category row)]>
          (<["metadata" := JObj (row_metadata row)]> ∅))).

Section operations.
Variable b : Behaviour.

Definition list_collections (m : gmap string Stored)
    : result (list string) * gmap string Stored :=
  (Return ((map_to_list m).*1), m).

Definition create_collection (name : string) (schema : CollectionSchema)
    (index_params : list IndexParam) (description : string)
    (m : gmap string Stored) : result () * gmap string Stored :=
  match m !! name with
  | Some _ => (Return (), m)
  | None =>
      (Return (),
       <[name := {| sc_schema := schema;
                    sc_index_params := index_params;
                    sc_description := description;
                    sc_rows := [] |}]> m)
  end.

Definition drop_collection (name : string) (m : gmap string Stored)
    : result () * gmap string Stored :=
  match m !! name with
  | Some _ => (Return (), delete name m)
  | None =>
      match drop_missing b name with
      | Some e => (Raise e, m)
      | None => (Return (), m)
      end
  end.

Definition insert (name : string) (data : list Row)
    (m : gmap string Stored) : result InsertResult * gmap string Stored :=
  match m !! name with
  | None => (Raise (not_found b name), m)
  | Some c =>
      if forallb (λ r, has_dimension (sc_schema c) (row_embedding r)) data
      then
        let first := Z.of_nat (length (sc_rows c)) + 1 in
        let ids := (λ i, first + Z.of_nat i) <$> seq 0 (length data) in
        (Return {| res_insert_count := Z.of_nat (length data);
                   res_ids := Some ids |},
         <[name := {| sc_schema := sc_schema c;
                      sc_index_params := sc_index_params c;
                      sc_description := sc_description c;
                      sc_rows := sc_rows c ++ zip ids data |}]> m)
      else (Raise (bad_dimension b), m)
  end.

Definition search (name : string) (data : list vector) (limit : Z)
    (output_fields : list string) (metric : string)
    (m : gmap string Stored)
    : result (list (list Hit)) * gmap string Stored :=
  match m !! name with
  | None => (Raise (not_found b name), m)
  | Some c =>
      if forallb (has_dimension (sc_schema c)) data then
        (Return
           ((λ q,
              (λ h : Z * float * Row,
                 {| hit_id := h.1.1;
                    hit_distance := h.1.2;
                    hit_entity := row_entity output_fields h.2 |})
              <$> take (Z.to_nat limit) (nearest b metric q (sc_rows c)))
            <$> data),
         m)
      else (Raise (bad_dimension b), m)
  end.

Definition client : AsyncMilvusClient (gmap string Stored) :=
  {| client_list_collections := list_collections;
     client_create_collection := create_collection;
     client_insert := insert;
     client_search := search;
     client_drop_collection := drop_collection |}.
End operations.

(** A backend in the manner of pymilvus: everything it refuses is a
    [MilvusException]; rows are reported in stored order with
    distance zero. *)
Definition milvus_like : Behaviour :=
  {| not_found := λ name,
       MilvusException 100 ("collection not found: " +:+ name);
     drop_missing := λ name,
       Some (MilvusException 100 ("collection not found: " +:+ name));
     bad_dimension := MilvusException 65535 "vector dimension mismatch";
     nearest := λ _ _ rows, (λ r : Z * Row, (r.1, 0%float, r.2)) <$> rows |}.

End Store.

(** ** The embedding model *)

(** Modelled from the spec: the text-embedding model behind
    [SentenceTransformer.encode] (the sentence_transformers library and
    the model weights are not part of this repository). Section 4.1 of
    the specification: a black-box function from a text to a vector,
    deterministic for a fixed model and input, with a batch variant that
    gives one output per input in the same order and is semantically
    equivalent to mapping the single encoding over the sequence. *)
Definition mapped_model (embed_text : string → vector) : SentenceTransformer :=
  {| st_encode := embed_text;
     st_encode_list := λ texts, embed_text <$> texts |}.

(** ** Start-up: the two singletons and [lifespan] *)

Module Startup.

(** The constructors of the two external classes, as they are called. *)
Inductive Constructed : Type :=
| NewSentenceTransformer (model_name : string)
| NewAsyncMilvusClient (uri : string) (token : option string).

(** The process as start-up sees it: the class attributes
    [EmbeddingModel._instance], [EmbeddingModel._model] and
    [MilvusManager._instance] (a manager is its attribute [client]),
    what the constructors act on (files, network, the environment
    variables), and the constructor calls made so far. *)
Record Process (E S : Type) :=
  { EmbeddingModel_instance : option ();
    EmbeddingModel_model : option SentenceTransformer;
    MilvusManager_instance : option (option (AsyncMilvusClient S));
    outside : E;
    constructed : list Constructed }.
Arguments EmbeddingModel_instance {E S} _.
Arguments EmbeddingModel_model {E S} _.
Arguments MilvusManager_instance {E S} _.
Arguments outside {E S} _.
Arguments constructed {E S} _.
Arguments Build_Process {E S} _ _ _ _ _.

(** [app.state] after start-up: the model as [app.state.model] reads it
    and the client of [app.state.milvus]. *)
Record AppState (S : Type) :=
  { state_model : option SentenceTransformer;
    state_milvus : option (AsyncMilvusClient S) }.
Arguments state_model {S} _.
Arguments state_milvus {S} _.
Arguments Build_AppState {S} _ _.

Definition DEFAULT_MILVUS_URI : string := "http://localhost:19530".

Section startup.
Context {E S : Type}.
(** [SentenceTransformer(name)], with the import before it. *)
Variable new_SentenceTransformer :
  string → E → result SentenceTransformer * E.
(** [AsyncMilvusClient(uri=..., token=...)]; no [token] keyword when the
    second argument is [None]. *)
Variable new_AsyncMilvusClient :
  string → option string → E → result (AsyncMilvusClient S) * E.
(** [os.getenv(name)] and [load_dotenv()]. *)
Variable getenv : E → string → option string.
Variable load_dotenv : E → E.

(** [EmbeddingModel.__init__] *)
Definition EmbeddingModel_init (p : Process E S) : result () * Process E S :=
  match EmbeddingModel_model p with
  | Some _ => (Return (), p)
  | None =>
      let '(r, e) :=
        new_SentenceTransformer EmbeddingModel.MODEL_NAME (outside p) in
      let called :=
        constructed p ++ [NewSentenceTransformer EmbeddingModel.MODEL_NAME] in
      match r with
      | Return m =>
          (Return (),
           {| EmbeddingModel_instance := EmbeddingModel_instance p;
              EmbeddingModel_model := Some m;
              MilvusManager_instance := MilvusManager_instance p;
              outside := e;
              constructed := called |})
      | Raise exc =>
          (Raise exc,
           {| EmbeddingModel_instance := EmbeddingModel_instance p;
              EmbeddingModel_model := None;
              MilvusManager_instance := MilvusManager_instance p;
              outside := e;
              constructed := called |})
      end
  end.

(** [EmbeddingModel.get_instance] *)
Definition EmbeddingModel_get_instance (p : Process E S)
    : result () * Process E S :=
  match EmbeddingModel_instance p with
  | Some instance => (Return instance, p)
  | None =>
      match EmbeddingModel_init p with
      | (Return instance, p') =>
          (Return instance,
           {| EmbeddingModel_instance := Some instance;
              EmbeddingModel_model := EmbeddingModel_model p';
              MilvusManager_instance := MilvusManager_instance p';
              outside := outside p';
              constructed := constructed p' |})
      | (Raise exc, p') => (Raise exc, p')
      end
  end.

(** The keyword arguments [connect] builds: the uri, and the token only
    when it is not the empty string. *)
Definition connect_kwargs (e : E) : string * option string :=
  let uri := default DEFAULT_MILVUS_URI (getenv e "MILVUS_URI") in
  let token := default "" (getenv e "MILVUS_TOKEN") in
  (uri, if bool_decide (token = "") then None else Some token).

(** [MilvusManager.connect] on the manager held in [_instance]. *)
Definition MilvusManager_connect (p : Process E S) : result () * Process E S :=
  let '(uri, token) := connect_kwargs (outside p) in
  let '(r, e) := new_AsyncMilvusClient uri token (outside p) in
  let called := constructed p ++ [NewAsyncMilvusClient uri token] in
  match r with
  | Return client =>
      (Return (),
       {| EmbeddingModel_instance := EmbeddingModel_instance p;
          EmbeddingModel_model := EmbeddingModel_model p;
          MilvusManager_instance := Some (Some client);
          outside := e;
          constructed := called |})
  | Raise exc =>
      (Raise exc,
       {| EmbeddingModel_instance := EmbeddingModel_instance p;
          EmbeddingModel_model := EmbeddingModel_model p;
          MilvusManager_instance := MilvusManager_instance p;
          outside := e;
          constructed := called |})
  end.

(** [MilvusManager.get_instance]: [_instance] is assigned the new
    manager (whose [client] is [None]) before [connect] is awaited. What
    is returned is the manager, read here through its [client]. *)
Definition MilvusManager_get_instance (p : Process E S)
    : result (option (AsyncMilvusClient S)) * Process E S :=
  match MilvusManager_instance p with
  | Some manager => (Return manager, p)
  | None =>
      let assigned :=
        {| EmbeddingModel_instance := EmbeddingModel_instance p;
           EmbeddingModel_model := EmbeddingModel_model p;
           MilvusManager_instance := Some None;
           outside := outside p;
           constructed := constructed p |} in
      match MilvusManager_connect assigned with
      | (Return _, p') =>
          (Return (default None (MilvusManager_instance p')), p')
      | (Raise exc, p') => (Raise exc, p')
      end
  end.

(** [lifespan] up to its [yield]. *)
Definition lifespan_startup (p : Process E S)
    : result (AppState S) * Process E S :=
  let loaded :=
    {| EmbeddingModel_instance := EmbeddingModel_instance p;
       EmbeddingModel_model := EmbeddingModel_model p;
       MilvusManager_instance := MilvusManager_instance p;
       outside := load_dotenv (outside p);
       constructed := constructed p |} in
  match EmbeddingModel_get_instance loaded with
  | (Raise exc, p1) => (Raise exc, p1)
  | (Return _, p1) =>
      match MilvusManager_get_instance p1 with
      | (Raise exc, p2) => (Raise exc, p2)
      | (Return manager, p2) =>
          (Return {| state_model := EmbeddingModel_model p2;
                     state_milvus := manager |}, p2)
      end
  end.
End startup.

(** A process in which nothing has been constructed yet. *)
Definition initial {E S} (e : E) : Process E S :=
  {| EmbeddingModel_instance := None;
     EmbeddingModel_model := None;
     MilvusManager_instance := None;
     outside := e;
     constructed := [] |}.

End Startup.

(** * Properties *)

(** ** Vocabulary of the statements *)

(** The row [insert] builds for an item when it embeds the text itself. *)
Definition auto_row (m : SentenceTransformer) (item : InsertItem) : Row :=
  {| row_text := text item;
     row_category := category item;
     row_metadata := metadata item;
     row_embedding := st_encode m (text item) |}.

Definition missing_embedding_detail : string :=
  "auto_embed=False일 때 각 item에 embedding이 필요합니다.".

Definition empty_texts_detail : string := "texts 배열이 비어있습니다.".

(** How an exception raised inside the [try] of the two search handlers
    leaves them. *)
Definition after_except_value_error (e : exn) : exn :=
  match as_ValueError e with
  | Some msg => HTTPException 404 msg
  | None => e
  end.

(** FastAPI's own exception class; the store's client has no way to
    raise it. *)
Definition is_http_exception (e : exn) : bool :=
  match e with
  | HTTPException _ _ => true
  | _ => false
  end.

(** The storage probe of [health]: there is a client and its
    [list_collections] returns. *)
Definition reachable {S} (client : option (AsyncMilvusClient S)) (s : S)
    : bool :=
  match client with
  | None => false
  | Some c =>
      match (client_list_collections c s).1 with
      | Return _ => true
      | Raise _ => false
      end
  end.

(** An answer FastAPI sends as a client error, and as a validation
    error (400 is what this service raises itself, 422 what FastAPI
    raises for a malformed body). *)
Definition client_error {A} (r : result A) : Prop :=
  400 ≤ status_code_of r < 500.

Definition client_validation_error {A} (r : result A) : Prop :=
  status_code_of r = 400 ∨ status_code_of r = 422.

(** ** Concrete worlds for the examples *)

Module Fixture.

Definition half : float := 0.5%float.

(** A model with two-component embeddings. *)
Definition model : SentenceTransformer :=
  {| st_encode := λ t, [half; if bool_decide (t = "a") then 1%float
                              else 0%float];
     st_encode_list := λ ts,
       (λ t, [half; if bool_decide (t = "a") then 1%float else 0%float])
       <$> ts |}.

Definition store : Type := gmap string Store.Stored.

Definition milvus : option (AsyncMilvusClient store) :=
  Some (Store.client Store.milvus_like).

Definition fresh : World store := {| server := ∅; trace := [] |}.

(** The store after [create_collection("c", 2)]. *)
Definition with_c : World store :=
  {| server :=
       {[ "c" := {| Store.sc_schema := MilvusManager.collection_schema 2;
                    Store.sc_index_params :=
                      MilvusManager.collection_index_params;
                    Store.sc_description := "";
                    Store.sc_rows := [] |} ]};
     trace := [] |}.

(** A backend that acknowledges every insert, keeps nothing and
    reports a count of zero and no ids. *)
Definition forgetful : AsyncMilvusClient () :=
  {| client_list_collections := λ s, (Return [], s);
     client_create_collection := λ _ _ _ _ s, (Return (), s);
     client_insert := λ _ _ s,
       (Return {| res_insert_count := 0; res_ids := None |}, s);
     client_search := λ _ _ _ _ _ s, (Return [], s);
     client_drop_collection := λ _ s, (Return (), s) |}.

Definition item (t : string) (e : option vector) : InsertItem :=
  {| text := t; category := ""; metadata := []; item_embedding := e |}.

Definition by_text : SearchRequest :=
  {| query := "a"; sr_limit := 5; sr_output_fields := None |}.

Definition short_vector : SearchByVectorRequest :=
  {| query_vector := [half]; svr_limit := 5; svr_output_fields := None |}.

Definition by_vector : SearchByVectorRequest :=
  {| query_vector := [half; half]; svr_limit := 5;
     svr_output_fields := None |}.

(** A store that reports a missing collection with a [ValueError]. *)
Definition value_error_store : Store.Behaviour :=
  {| Store.not_found := λ name, ValueError ("collection not found: " +:+ name);
     Store.drop_missing := Store.drop_missing Store.milvus_like;
     Store.bad_dimension := Store.bad_dimension Store.milvus_like;
     Store.nearest := Store.nearest Store.milvus_like |}.

End Fixture.

(** The row [insert] builds for an item that came with its embedding. *)
Definition given_row (item : InsertItem) : Row :=
  {| row_text := text item;
     row_category := category item;
     row_metadata := metadata item;
     row_embedding := default [] (item_embedding item) |}.

Definition no_encode : string := "'NoneType' object has no attribute 'encode'".

Definition no_attribute (method : string) : string :=
  "'NoneType' object has no attribute '" +:+ method +:+ "'".

(** ** Further concrete inputs *)

Module Fixture2.

(** A backend whose [search] answers with two result lists; the first
    hit has no entity fields at all. *)
Definition answering : AsyncMilvusClient () :=
  {| client_list_collections := λ s, (Return ["c"], s);
     client_create_collection := λ _ _ _ _ s, (Return (), s);
     client_insert := λ _ data s,
       (Return {| res_insert_count := Z.of_nat (length data);
                  res_ids := None |}, s);
     client_search := λ _ _ _ _ _ s,
       (Return
          [ [ {| hit_id := 7; hit_distance := Fixture.half;
                 hit_entity := ∅ |};
              {| hit_id := 3; hit_distance := 1%float;
                 hit_entity :=
                   {[ "text" := JStr "a"; "category" := JStr "k";
                      "metadata" := JObj [("n", JInt 1)] ]} |} ];
            [ {| hit_id := 9; hit_distance := 0%float;
                 hit_entity := ∅ |} ] ], s);
     client_drop_collection := λ _ s, (Return (), s) |}.

Definition nowhere : World () := {| server := (); trace := [] |}.

(** The environment as a list of variables and the number of times the
    model download still fails; a client constructor that refuses the
    empty uri. *)
Record Outside := { environ : list (string * string); failures : nat }.

Definition getenv (e : Outside) (name : string) : option string :=
  (λ found, found.2.2) <$> list_find (λ kv, kv.1 = name) (environ e).

Definition load_dotenv (e : Outside) : Outside := e.

Definition new_SentenceTransformer (name : string) (e : Outside)
    : result SentenceTransformer * Outside :=
  match failures e with
  | O => (Return Fixture.model, e)
  | Datatypes.S n =>
      (Raise (ConnectionError "cannot download"),
       {| environ := environ e; failures := n |})
  end.

Definition new_AsyncMilvusClient (uri : string) (token : option string)
    (e : Outside) : result (AsyncMilvusClient ()) * Outside :=
  if bool_decide (uri = "") then (Raise (ConnectionError "no uri"), e)
  else (Return answering, e).

Definition ready : Outside :=
  {| environ := [("MILVUS_TOKEN", "")]; failures := 0 |}.

Definition no_files : Outside := {| environ := []; failures := 1 |}.

Definition files_now : Outside := {| environ := []; failures := 0 |}.

Definition bad_uri : Outside :=
  {| environ := [("MILVUS_URI", "")]; failures := 0 |}.

End Fixture2.

(** ** Insertion *)

Module InsertProps.
Section insert.
Context {S : Type}.
Implicit Types (w : World S) (items : list InsertItem) (data : list Row).

Lemma world_eta w : {| server := server w; trace := trace w |} = w.
Proof. by destruct w. Qed.

Lemma insert_loop_auto m items : ∀ data w,
  Main.insert_loop (Some m) true items data w
  = (Return (data ++ (auto_row m <$> items)),
     {| server := server w;
        trace := trace w ++ ((λ item, EvEncode (text item)) <$> items) |}).
Proof.
  induction items as [|item items IH]; intros data w; simpl.
  - by rewrite !app_nil_r, world_eta.
  - unfold bind at 1. simpl. rewrite IH. simpl.
    by rewrite <- !app_assoc.
Qed.

Lemma insert_loop_pre_embedded_missing _model items : ∀ data w,
  (∃ item, item ∈ items ∧ item_embedding item = None) →
  Main.insert_loop _model false items data w
  = (Raise (HTTPException 400 missing_embedding_detail), w).
Proof.
  induction items as [|item items IH]; intros data w [bad [Hin Hnone]].
  - by apply elem_of_nil in Hin.
  - simpl. unfold bind at 1.
    destruct (item_embedding item) as [v|] eqn:He; simpl; [|done].
    apply IH. exists bad. split; [|done].
    apply elem_of_cons in Hin as [->|Hin]; [congruence|done].
Qed.

Lemma insert_loop_length _model auto items : ∀ data w data' w',
  Main.insert_loop _model auto items data w = (Return data', w') →
  length data' = (length data + length items)%nat.
Proof.
  induction items as [|item items IH]; intros data w data' w'; simpl.
  - intros [= <- _]. lia.
  - unfold bind at 1.
    destruct auto.
    + destruct _model as [m|]; simpl; [|done].
      intros H%IH. rewrite length_app in H. simpl in H. lia.
    + destruct (item_embedding item); simpl; [|done].
      intros H%IH. rewrite length_app in H. simpl in H. lia.
Qed.

(** What [MilvusManager.insert] does with a connected client. *)
Lemma manager_insert_connected (c : AsyncMilvusClient S) name data w :
  MilvusManager.insert (Some c) name data w
  = (match (client_insert c name data (server w)).1 with
     | Return res =>
         Return {| sum_insert_count := Z.of_nat (length data);
                 sum_ids := default [] (res_ids res) |}
     | Raise e => Raise e
     end,
     {| server := (client_insert c name data (server w)).2;
        trace := trace w ++ [EvInsert name data] |}).
Proof.
  unfold MilvusManager.insert, MilvusManager.call, bind, emit, on_server,
    ret. simpl.
  by destruct (client_insert c name data (server w)) as [[res|e] s'].
Qed.

(** C1. With [auto_embed] true, [insert] builds one row per item in
    the order of the request, each with the embedding
    [encode(item.text)] whatever embedding the client sent, calls the
    store's [insert] exactly once with all the rows, and, when that
    call returns, answers with the number of items. *)
Theorem insert_auto_embed_one_batch (m : SentenceTransformer)
    (c : AsyncMilvusClient S) name items w :
  let data := auto_row m <$> items in
  let encodes := (λ item, EvEncode (text item)) <$> items in
  let answer := client_insert c name data (server w) in
  Main.insert (Some m) (Some c) name
    {| items := items; auto_embed := true |} w
  = (match answer.1 with
     | Return _ => Return {| insert_count := Z.of_nat (length items) |}
     | Raise e => Raise e
     end,
     {| server := answer.2;
        trace := trace w ++ encodes ++ [EvInsert name data] |})
  ∧ length data = length items
  ∧ (∀ i item, items !! i = Some item →
       data !! i = Some (auto_row m item))
  ∧ filter (λ ev, is_store_call ev) (encodes ++ [EvInsert name data])
    = [EvInsert name data].
Proof.
  intros data encodes answer. repeat split.
  - unfold Main.insert. simpl. unfold bind at 1.
    rewrite insert_loop_auto. simpl. unfold bind at 1.
    rewrite manager_insert_connected. simpl.
    fold data. fold answer. fold encodes.
    rewrite <- app_assoc.
    destruct (answer.1); simpl; [|done].
    unfold ret. simpl. subst data. by rewrite length_fmap.
  - subst data. by rewrite length_fmap.
  - intros i item Hi. subst data. by rewrite list_lookup_fmap, Hi.
  - rewrite filter_app. subst encodes.
    assert (filter (λ ev, is_store_call ev)
              ((λ item, EvEncode (text item)) <$> items) = []) as ->.
    { clear. induction items as [|x xs IH]; [done|]. simpl.
      rewrite filter_cons_False; [done|]. simpl. tauto. }
    done.
Qed.

(** C2. With [auto_embed] false and an item without embedding,
    [insert] raises [HTTPException(400)] and the world is as it was:
    nothing was encoded, no call reached the store, the server is
    unchanged. *)
Theorem insert_missing_embedding_rejected _model
    (client : option (AsyncMilvusClient S)) name req w :
  auto_embed req = false →
  (∃ item, item ∈ items req ∧ item_embedding item = None) →
  Main.insert _model client name req w
  = (Raise (HTTPException 400 missing_embedding_detail), w)
  ∧ client_validation_error (Main.insert _model client name req w).1.
Proof.
  intros Hauto Hmissing.
  assert (Main.insert _model client name req w
          = (Raise (HTTPException 400 missing_embedding_detail), w)) as E.
  { unfold Main.insert. rewrite Hauto. unfold bind at 1.
    by rewrite insert_loop_pre_embedded_missing. }
  split; [done|]. rewrite E. by left.
Qed.

(** C10. When [insert] returns, its [insert_count] is the number of
    items of the request, whatever count and ids the store's answer
    carried. *)
Theorem insert_count_is_request_length _model
    (client : option (AsyncMilvusClient S)) name req w resp w' :
  Main.insert _model client name req w = (Return resp, w') →
  insert_count resp = Z.of_nat (length (items req)).
Proof.
  unfold Main.insert. unfold bind at 1.
  destruct (Main.insert_loop _model (auto_embed req) (items req) [] w)
    as [[data|e] w1] eqn:Hloop; [|done].
  apply insert_loop_length in Hloop. simpl in Hloop.
  unfold bind at 1.
  destruct client as [c|]; [|done].
  rewrite manager_insert_connected.
  destruct (client_insert c name data (server w1)).1; simpl; [|done].
  intros [= <- _]. simpl. by rewrite Hloop.
Qed.
End insert.
End InsertProps.

Module InsertExamples.
Import Fixture.

Lemma insert_missing_embedding_rejected_witness :
  Main.insert (Some model) milvus "c"
    {| items := [item "a" (Some [half; half]); item "b" None];
       auto_embed := false |} with_c
  = (Raise (HTTPException 400 missing_embedding_detail), with_c)
  ∧ client_validation_error
      (Main.insert (Some model) milvus "c"
         {| items := [item "a" (Some [half; half]); item "b" None];
            auto_embed := false |} with_c).1.
Proof.
  apply InsertProps.insert_missing_embedding_rejected; [reflexivity|].
  exists (item "b" None). split; [|reflexivity].
  right; left.
Defined.

Lemma insert_count_is_request_length_witness :
  insert_count {| insert_count := 2 |}
  = Z.of_nat (length [item "a" None; item "b" None]).
Proof.
  apply (InsertProps.insert_count_is_request_length
           (Some model) (Some forgetful) "c"
           {| items := [item "a" None; item "b" None]; auto_embed := true |}
           {| server := (); trace := [] |}
           {| insert_count := 2 |}
           {| server := ();
              trace := [EvEncode "a"; EvEncode "b";
                        EvInsert "c" (auto_row model
                                        <$> [item "a" None; item "b" None])]
           |}).
  reflexivity.
Defined.

(** C7, the insert half. A request with no items is not refused:
    [insert] sends the empty batch to the store and answers 200 with
    [insert_count = 0]. *)
Theorem insert_empty_batch_reaches_store :
  Main.insert (Some model) milvus "c"
    {| items := []; auto_embed := true |} with_c
  = (Return {| insert_count := 0 |},
     {| server := server with_c; trace := [EvInsert "c" []] |})
  ∧ status_code_of
      (Main.insert (Some model) milvus "c"
         {| items := []; auto_embed := true |} with_c).1 = 200.
Proof. split; vm_compute; reflexivity. Qed.
End InsertExamples.

Module EmbedProps.
Section embed.
Context {S : Type}.

(** The batch-embedding half of C7: an empty [texts] is refused with
    [HTTPException(400)] before the model is called. *)
Lemma embed_batch_empty_rejected _model (w : World S) :
  Main.embed_batch _model {| ebr_texts := [] |} w
  = (Raise (HTTPException 400 empty_texts_detail), w).
Proof. reflexivity. Qed.

(** An insert with no items goes to the store with either setting of
    [auto_embed], and what the store answers decides the outcome. *)
Lemma insert_empty_passes_to_store _model (c : AsyncMilvusClient S)
    name auto (w : World S) :
  Main.insert _model (Some c) name {| items := []; auto_embed := auto |} w
  = (match (client_insert c name [] (server w)).1 with
     | Return _ => Return {| insert_count := 0 |}
     | Raise e => Raise e
     end,
     {| server := (client_insert c name [] (server w)).2;
        trace := trace w ++ [EvInsert name []] |}).
Proof.
  unfold Main.insert. simpl. unfold bind at 1. simpl. unfold bind at 1.
  rewrite InsertProps.manager_insert_connected.
  by destruct (client_insert c name [] (server w)).1.
Qed.

(** Under the batch law of the model (a list is encoded row by row as
    its elements are), [encode_batch] agrees with [encode] at every
    index. *)
Lemma encode_batch_lookup (m : SentenceTransformer) texts (w : World S) :
  (∀ ts, st_encode_list m ts = st_encode m <$> ts) →
  ∀ i t, texts !! i = Some t →
    ∃ vs w1 v w2,
      EmbeddingModel.encode_batch (Some m) texts w = (Return vs, w1)
      ∧ EmbeddingModel.encode (Some m) t w = (Return v, w2)
      ∧ vs !! i = Some v.
Proof.
  intros Hlaw i t Hi. eexists _, _, _, _. repeat split.
  simpl. rewrite Hlaw, list_fmap_id, list_lookup_fmap, Hi. done.
Qed.
End embed.
End EmbedProps.

Module HealthProps.
Section health.
Context {S : Type}.

(** C6. [health] always returns; its status is "ok" exactly when the
    model is loaded ([_model] is not [None]) and the store answers the
    [list_collections] probe, and "degraded" otherwise; a probe that
    raises is caught and reported as not connected; [model.loaded]
    says whether [_model] is there, whatever the store does. *)
Theorem health_ok_iff_model_and_store _model
    (client : option (AsyncMilvusClient S)) (w : World S) :
  ∃ resp w',
    Main.health _model client w = (Return resp, w')
    ∧ (Main.health_status resp = "ok"
       ↔ is_Some _model ∧ reachable client (server w) = true)
    ∧ (Main.health_status resp ≠ "ok"
       → Main.health_status resp = "degraded")
    ∧ (Main.loaded (Main.model resp) = true ↔ is_Some _model)
    ∧ (Main.loaded (Main.model resp) = false ↔ _model = None)
    ∧ Main.connected (Main.milvus resp) = reachable client (server w)
    ∧ trace w' = trace w ++ match client with
                           | Some _ => [EvListCollections]
                           | None => []
                           end.
Proof.
  unfold Main.health, reachable.
  destruct client as [c|]; simpl.
  - unfold bind, try_except, MilvusManager.list_collections,
      MilvusManager.call, bind, emit, on_server, ret. simpl.
    destruct (client_list_collections c (server w)) as [[names|e] s'];
      simpl; eexists _, _; (split; [reflexivity|]); simpl;
      destruct _model as [m|]; simpl;
      repeat split; try done; eauto;
      try (by intros [[? ?] ?]); try (by intros [? ?]).
  - unfold bind, ret. simpl. eexists _, _. (split; [reflexivity|]). simpl.
    rewrite app_nil_r, andb_false_r.
    destruct _model as [m|]; simpl;
      repeat split; try done; eauto;
      try (by intros [[? ?] ?]); try (by intros [? ?]).
Qed.
End health.
End HealthProps.

Module CollectionProps.
Section collections.
Variable b : Store.Behaviour.
Abbreviation store := (gmap string Store.Stored).
Abbreviation cl := (Some (Store.client b)).
Implicit Types (w : World store) (m : store) (name : string).

Lemma elem_of_names m name :
  name ∈ (map_to_list m).*1 ↔ is_Some (m !! name).
Proof.
  rewrite list_elem_of_fmap. split.
  - intros [[k v] [-> H%elem_of_map_to_list]]. by exists v.
  - intros [v H]. exists (name, v). split; [done|].
    by apply elem_of_map_to_list.
Qed.

Lemma once_in_nodup (l : list string) name :
  NoDup l → name ∈ l → length (filter (λ n, n = name) l) = 1%nat.
Proof.
  induction 1 as [|x l Hx Hl IH]; intros Hin.
  - by apply elem_of_nil in Hin.
  - destruct (decide (x = name)) as [->|Hne].
    + rewrite filter_cons_True by done. simpl. f_equal.
      destruct (filter (λ n, n = name) l) as [|y ?] eqn:E; [done|].
      assert (y ∈ filter (λ n, n = name) l) as Hy by (rewrite E; left).
      apply list_elem_of_filter in Hy as [-> Hy]. done.
    + rewrite filter_cons_False by done. apply IH.
      apply elem_of_cons in Hin as [->|Hin]; done.
Qed.

Lemma list_collections_store w :
  MilvusManager.list_collections cl w
  = (Return ((map_to_list (server w)).*1),
     {| server := server w; trace := trace w ++ [EvListCollections] |}).
Proof. reflexivity. Qed.

(** Creating a name the store already has: one [list_collections]
    call and nothing else. *)
Lemma create_existing name dim description w :
  is_Some (server w !! name) →
  MilvusManager.create_collection cl name dim description w
  = (Return {| collection := name; status := "already_exists" |},
     {| server := server w; trace := trace w ++ [EvListCollections] |}).
Proof.
  intros Hsome. unfold MilvusManager.create_collection, bind at 1.
  rewrite list_collections_store.
  rewrite bool_decide_eq_true_2 by by apply elem_of_names.
  reflexivity.
Qed.

Lemma create_fresh name dim description w :
  server w !! name = None →
  MilvusManager.create_collection cl name dim description w
  = (Return {| collection := name; status := "created" |},
     {| server :=
          <[name := {| Store.sc_schema :=
                         MilvusManager.collection_schema dim;
                       Store.sc_index_params :=
                         MilvusManager.collection_index_params;
                       Store.sc_description := description;
                       Store.sc_rows := [] |}]> (server w);
        trace :=
          trace w
          ++ [EvListCollections;
              EvCreateCollection name (MilvusManager.collection_schema dim)
                MilvusManager.collection_index_params description] |}).
Proof.
  intros Hnone. unfold MilvusManager.create_collection, bind at 1.
  rewrite list_collections_store.
  rewrite bool_decide_eq_false_2.
  2:{ rewrite elem_of_names, Hnone. by intros [? ?]. }
  unfold bind, MilvusManager.call, bind, emit, on_server, ret. simpl.
  unfold Store.create_collection. rewrite Hnone. simpl.
  by rewrite <- app_assoc.
Qed.

(** C3. On a store that does not have the name, [create_collection]
    answers "created"; a second request for the same name, whatever
    its dimension and description, answers "already_exists" after a
    single [list_collections] call and leaves the store as the first
    call made it; the same holds in any later state that has the
    name; and [list_collections] then has the name exactly once. *)
Theorem create_collection_twice (req1 req2 : CollectionCreateRequest) w :
  server w !! ccr_name req1 = None →
  ccr_name req2 = ccr_name req1 →
  ∃ w1 w2 names w3,
    Main.create_collection cl req1 w
    = (Return {| collection := ccr_name req1; status := "created" |}, w1)
    ∧ Main.create_collection cl req2 w1
      = (Return {| collection := ccr_name req1;
                   status := "already_exists" |}, w2)
    ∧ server w1 !! ccr_name req1
      = Some {| Store.sc_schema :=
                  MilvusManager.collection_schema (ccr_dimension req1);
                Store.sc_index_params :=
                  MilvusManager.collection_index_params;
                Store.sc_description := ccr_description req1;
                Store.sc_rows := [] |}
    ∧ server w2 = server w1
    ∧ trace w2 = trace w1 ++ [EvListCollections]
    ∧ (∀ w', is_Some (server w' !! ccr_name req1) →
         Main.create_collection cl req2 w'
         = (Return {| collection := ccr_name req1;
                      status := "already_exists" |},
            {| server := server w';
               trace := trace w' ++ [EvListCollections] |}))
    ∧ Main.list_collections cl w2 = (Return names, w3)
    ∧ length (filter (λ n, n = ccr_name req1) names) = 1%nat.
Proof.
  intros Hfresh Hsame. unfold Main.create_collection, Main.list_collections.
  rewrite Hsame.
  eexists _, _, _, _.
  split; [by apply create_fresh|].
  split; [apply create_existing; simpl; by rewrite lookup_insert_eq|].
  split; [simpl; by rewrite lookup_insert_eq|].
  split; [done|]. split; [done|].
  split; [intros w' Hw'; by apply create_existing|].
  split; [apply list_collections_store|].
  apply once_in_nodup; [apply NoDup_fst_map_to_list|].
  apply elem_of_names. simpl. by rewrite lookup_insert_eq.
Qed.

(** C8 as the code has it. [drop_collection] hands the name to the
    store and does nothing else: for a name the store has, the answer
    is [{collection: name, status: "dropped"}] and the name is gone
    from [list_collections]; for a name it does not have, the store
    is unchanged and the store's own answer decides: an exception of
    the store (which is never FastAPI's [HTTPException]) leaves the
    handler as raised and is answered with 500, not with a client
    error; and if the store raises none the answer is "dropped"
    again. *)
Theorem drop_collection_passes_store_answer name w :
  (∀ e, Store.drop_missing b name = Some e → is_http_exception e = false) →
  ∃ r w',
    Main.drop_collection cl name w = (r, w')
    ∧ trace w' = trace w ++ [EvDropCollection name]
    ∧ match server w !! name with
      | Some _ =>
          r = Return {| collection := name; status := "dropped" |}
          ∧ ∃ names w'',
              Main.list_collections cl w' = (Return names, w'')
              ∧ name ∉ names
      | None =>
          server w' = server w
          ∧ match Store.drop_missing b name with
            | Some e =>
                r = Raise e ∧ status_code_of r = 500 ∧ ¬ client_error r
            | None =>
                r = Return {| collection := name; status := "dropped" |}
            end
      end.
Proof.
  intros Hstore.
  unfold Main.drop_collection, MilvusManager.drop_collection,
    MilvusManager.call, bind, emit, on_server, ret. simpl.
  unfold Store.drop_collection.
  destruct (server w !! name) as [c|] eqn:Hc; simpl.
  - eexists _, _. split; [reflexivity|]. split; [done|]. split; [done|].
    eexists _, _. split; [apply list_collections_store|]. simpl.
    rewrite elem_of_names, lookup_delete_eq. by intros [? ?].
  - destruct (Store.drop_missing b name) as [e|]; simpl;
      eexists _, _; (split; [reflexivity|]); (split; [done|]);
      (split; [done|]); [|done].
    specialize (Hstore e eq_refl).
    assert (status_code_of (A:=CollectionResponse) (Raise e) = 500) as Hs
      by (by destruct e).
    split; [done|]. split; [done|].
    unfold client_error. rewrite Hs. lia.
Qed.
End collections.
End CollectionProps.

Module CollectionExamples.
Import Fixture.

Lemma create_collection_twice_witness :
  ∃ w1 w2 names w3,
    Main.create_collection milvus
      {| ccr_name := "c"; ccr_dimension := 1024; ccr_description := "" |}
      fresh
    = (Return {| collection := "c"; status := "created" |}, w1)
    ∧ Main.create_collection milvus
        {| ccr_name := "c"; ccr_dimension := 768; ccr_description := "x" |}
        w1
      = (Return {| collection := "c"; status := "already_exists" |}, w2)
    ∧ server w1 !! "c"
      = Some {| Store.sc_schema := MilvusManager.collection_schema 1024;
                Store.sc_index_params :=
                  MilvusManager.collection_index_params;
                Store.sc_description := "";
                Store.sc_rows := [] |}
    ∧ server w2 = server w1
    ∧ trace w2 = trace w1 ++ [EvListCollections]
    ∧ (∀ w', is_Some (server w' !! "c") →
         Main.create_collection milvus
           {| ccr_name := "c"; ccr_dimension := 768;
              ccr_description := "x" |} w'
         = (Return {| collection := "c"; status := "already_exists" |},
            {| server := server w';
               trace := trace w' ++ [EvListCollections] |}))
    ∧ Main.list_collections milvus w2 = (Return names, w3)
    ∧ length (filter (λ n, n = "c") names) = 1%nat.
Proof.
  apply (CollectionProps.create_collection_twice Store.milvus_like
           {| ccr_name := "c"; ccr_dimension := 1024;
              ccr_description := "" |}
           {| ccr_name := "c"; ccr_dimension := 768;
              ccr_description := "x" |} fresh);
    reflexivity.
Defined.

Lemma drop_collection_passes_store_answer_witness :
  ∃ r w',
    Main.drop_collection milvus "missing" fresh = (r, w')
    ∧ trace w' = trace fresh ++ [EvDropCollection "missing"]
    ∧ match server fresh !! "missing" with
      | Some _ =>
          r = Return {| collection := "missing"; status := "dropped" |}
          ∧ ∃ names w'',
              Main.list_collections milvus w' = (Return names, w'')
              ∧ "missing" ∉ names
      | None =>
          server w' = server fresh
          ∧ match Store.drop_missing Store.milvus_like "missing" with
            | Some e =>
                r = Raise e ∧ status_code_of r = 500 ∧ ¬ client_error r
            | None =>
                r = Return {| collection := "missing"; status := "dropped" |}
            end
      end.
Proof.
  apply (CollectionProps.drop_collection_passes_store_answer
           Store.milvus_like "missing" fresh).
  intros e [= <-]. reflexivity.
Defined.

(** C8 as stated fails: on a store that reports a missing collection
    with its own exception, dropping a name never created leaves the
    handler as that exception, which FastAPI answers with 500, not with
    a not-found answer. *)
Lemma drop_missing_is_not_a_404 :
  (Main.drop_collection milvus "missing" fresh).1
  = Raise (MilvusException 100 "collection not found: missing")
  ∧ status_code_of (Main.drop_collection milvus "missing" fresh).1 = 500
  ∧ ¬ client_error (Main.drop_collection milvus "missing" fresh).1.
Proof.
  split; [reflexivity|]. split; [reflexivity|].
  unfold client_error.
  change (status_code_of (Main.drop_collection milvus "missing" fresh).1)
    with 500.
  lia.
Qed.
End CollectionExamples.

Module SearchProps.
Section any_client.
Context {S : Type}.
Variable c : AsyncMilvusClient S.
Implicit Types (w : World S) (name : string).

Lemma manager_search_connected name vectors limit output_fields w :
  let fields :=
    default MilvusManager.default_output_fields output_fields in
  let answer :=
    client_search c name vectors limit fields "COSINE" (server w) in
  MilvusManager.search (Some c) name vectors limit output_fields w
  = (match answer.1 with
     | Return found =>
         Return ((λ hits : list Hit, MilvusManager.format_hit <$> hits)
                 <$> found)
     | Raise e => Raise e
     end,
     {| server := answer.2;
        trace := trace w
                 ++ [EvSearch name vectors limit fields "COSINE"] |}).
Proof.
  intros fields answer.
  unfold MilvusManager.search, MilvusManager.call, bind, emit, on_server,
    ret. simpl. fold fields. fold answer.
  by destruct answer as [[found|e] s'].
Qed.

(** The [try]/[except ValueError] around [MilvusManager.search]. *)
Lemma guarded_search_raises name vectors limit output_fields w e s' :
  client_search c name vectors limit
    (default MilvusManager.default_output_fields output_fields) "COSINE"
    (server w) = (Raise e, s') →
  try_except
    (MilvusManager.search (Some c) name vectors limit output_fields)
    Main.value_error_to_404 w
  = (Raise (after_except_value_error e),
     {| server := s';
        trace := trace w
                 ++ [EvSearch name vectors limit
                       (default MilvusManager.default_output_fields
                          output_fields) "COSINE"] |}).
Proof.
  intros Hraise. unfold try_except.
  rewrite manager_search_connected, Hraise. simpl.
  by destruct e.
Qed.

Lemma search_by_vector_store_raises name req w e s' :
  client_search c name [query_vector req] (svr_limit req)
    (default MilvusManager.default_output_fields (svr_output_fields req))
    "COSINE" (server w) = (Raise e, s') →
  Main.search_by_vector (Some c) name req w
  = (Raise (after_except_value_error e),
     {| server := s';
        trace := trace w
                 ++ [EvSearch name [query_vector req] (svr_limit req)
                       (default MilvusManager.default_output_fields
                          (svr_output_fields req)) "COSINE"] |}).
Proof.
  intros Hraise. unfold Main.search_by_vector, bind at 1.
  by rewrite (guarded_search_raises _ _ _ _ _ _ _ Hraise).
Qed.

Lemma search_store_raises (m : SentenceTransformer) name req w e s' :
  client_search c name [st_encode m (query req)] (sr_limit req)
    (default MilvusManager.default_output_fields (sr_output_fields req))
    "COSINE" (server w) = (Raise e, s') →
  Main.search (Some m) (Some c) name req w
  = (Raise (after_except_value_error e),
     {| server := s';
        trace := trace w
                 ++ [EvEncode (query req);
                     EvSearch name [st_encode m (query req)] (sr_limit req)
                       (default MilvusManager.default_output_fields
                          (sr_output_fields req)) "COSINE"] |}).
Proof.
  intros Hraise. unfold Main.search, bind at 1. simpl.
  unfold bind at 1.
  rewrite (guarded_search_raises name [st_encode m (query req)]
             (sr_limit req) (sr_output_fields req)
             {| server := server w;
                trace := trace w ++ [EvEncode (query req)] |} e s' Hraise).
  simpl. by rewrite <- app_assoc.
Qed.
End any_client.

Section on_store.
Variable b : Store.Behaviour.
Abbreviation store := (gmap string Store.Stored).
Abbreviation cl := (Some (Store.client b)).
Implicit Types (w : World store) (name : string).

(** Searching a name the store does not have: what leaves the
    handler is the store's exception, turned into a 404 only when it
    is a [ValueError]. *)
Lemma search_by_vector_missing name req w :
  server w !! name = None →
  (Main.search_by_vector cl name req w).1
  = Raise (after_except_value_error (Store.not_found b name)).
Proof.
  intros Hnone.
  rewrite (search_by_vector_store_raises (Store.client b) name req w
             (Store.not_found b name) (server w)); [done|].
  simpl. unfold Store.search. by rewrite Hnone.
Qed.

Lemma search_missing m name req w :
  server w !! name = None →
  (Main.search (Some m) cl name req w).1
  = Raise (after_except_value_error (Store.not_found b name)).
Proof.
  intros Hnone.
  rewrite (search_store_raises (Store.client b) m name req w
             (Store.not_found b name) (server w)); [done|].
  simpl. unfold Store.search. by rewrite Hnone.
Qed.

(** How FastAPI answers what leaves the [try] of a search handler
    when the store raised an exception of its own. *)
Lemma status_after_except_value_error {A} (e : exn) :
  is_http_exception e = false →
  status_code_of (A:=A) (Raise (after_except_value_error e))
  = match as_ValueError e with Some _ => 404 | None => 500 end.
Proof. by destruct e. Qed.

(** C5 as the code has it. [search_by_vector] does not look at the
    length of the query vector: it sends the vector as it is in one
    [search] call. When the store refuses a vector whose length is
    not the collection's dimension with an exception of its own
    (which is never FastAPI's [HTTPException]), no results are
    returned, the store is unchanged, and the answer is 404 when that
    exception is a [ValueError] (or of a subclass) and 500 otherwise:
    never a client validation error. *)
Theorem search_by_vector_wrong_dimension name req w stored d :
  server w !! name = Some stored →
  Store.schema_dim (Store.sc_schema stored) = Some d →
  Z.of_nat (length (query_vector req)) ≠ d →
  is_http_exception (Store.bad_dimension b) = false →
  Main.search_by_vector cl name req w
  = (Raise (after_except_value_error (Store.bad_dimension b)),
     {| server := server w;
        trace := trace w
                 ++ [EvSearch name [query_vector req] (svr_limit req)
                       (default MilvusManager.default_output_fields
                          (svr_output_fields req)) "COSINE"] |})
  ∧ status_code_of (Main.search_by_vector cl name req w).1
    = match as_ValueError (Store.bad_dimension b) with
      | Some _ => 404
      | None => 500
      end
  ∧ ¬ client_validation_error (Main.search_by_vector cl name req w).1.
Proof.
  intros Hstored Hdim Hlen Hown.
  assert (Main.search_by_vector cl name req w
          = (Raise (after_except_value_error (Store.bad_dimension b)),
             {| server := server w;
                trace := trace w
                         ++ [EvSearch name [query_vector req] (svr_limit req)
                               (default MilvusManager.default_output_fields
                                  (svr_output_fields req)) "COSINE"] |}))
    as E.
  { apply search_by_vector_store_raises. simpl.
    unfold Store.search. rewrite Hstored. simpl.
    unfold Store.has_dimension. rewrite Hdim.
    by rewrite bool_decide_eq_false_2. }
  split; [done|]. rewrite E. cbn [fst].
  pose proof (status_after_except_value_error (A:=SearchResponse) _ Hown)
    as Hstatus.
  split; [done|]. unfold client_validation_error. rewrite Hstatus.
  destruct (as_ValueError (Store.bad_dimension b)); lia.
Qed.
End on_store.
End SearchProps.

Module SearchExamples.
Import Fixture.

(** C4. On a store that reports a missing collection with its own
    exception class, both search handlers let that exception through:
    the answer for a collection never created is a 500, not a 404. *)
Theorem search_missing_collection_is_500 :
  (Main.search (Some model) milvus "missing" by_text fresh).1
  = Raise (MilvusException 100 "collection not found: missing")
  ∧ status_code_of
      (Main.search (Some model) milvus "missing" by_text fresh).1 = 500
  ∧ (Main.search_by_vector milvus "missing" by_vector fresh).1
    = Raise (MilvusException 100 "collection not found: missing")
  ∧ status_code_of
      (Main.search_by_vector milvus "missing" by_vector fresh).1 = 500.
Proof. repeat split; reflexivity. Qed.

(** The same two requests on a store that reports a missing collection
    with a [ValueError] are answered with 404. *)
Lemma search_missing_collection_value_error_is_404 :
  status_code_of
    (Main.search (Some model) (Some (Store.client value_error_store))
       "missing" by_text fresh).1 = 404
  ∧ status_code_of
      (Main.search_by_vector (Some (Store.client value_error_store))
         "missing" by_vector fresh).1 = 404.
Proof. split; reflexivity. Qed.

(** C5 as stated fails: a query vector of length 1 against the
    collection of dimension 2 is refused by the store, and the refusal
    leaves the handler as a 500, not as a client validation error. *)
Lemma search_by_vector_wrong_dimension_is_500 :
  Z.of_nat (length (query_vector short_vector)) ≠ 2
  ∧ Store.schema_dim (MilvusManager.collection_schema 2) = Some 2
  ∧ (Main.search_by_vector milvus "c" short_vector with_c).1
    = Raise (MilvusException 65535 "vector dimension mismatch")
  ∧ status_code_of
      (Main.search_by_vector milvus "c" short_vector with_c).1 = 500
  ∧ ¬ client_validation_error
        (Main.search_by_vector milvus "c" short_vector with_c).1.
Proof.
  split; [done|]. split; [reflexivity|]. split; [reflexivity|].
  split; [reflexivity|].
  unfold client_validation_error.
  change (status_code_of
            (Main.search_by_vector milvus "c" short_vector with_c).1)
    with 500.
  lia.
Qed.

Lemma search_by_vector_wrong_dimension_witness :
  Main.search_by_vector milvus "c" short_vector with_c
  = (Raise (after_except_value_error
              (Store.bad_dimension Store.milvus_like)),
     {| server := server with_c;
        trace := trace with_c
                 ++ [EvSearch "c" [query_vector short_vector]
                       (svr_limit short_vector)
                       (default MilvusManager.default_output_fields
                          (svr_output_fields short_vector)) "COSINE"] |})
  ∧ status_code_of (Main.search_by_vector milvus "c" short_vector with_c).1
    = match as_ValueError (Store.bad_dimension Store.milvus_like) with
      | Some _ => 404
      | None => 500
      end
  ∧ ¬ client_validation_error
        (Main.search_by_vector milvus "c" short_vector with_c).1.
Proof.
  apply (SearchProps.search_by_vector_wrong_dimension Store.milvus_like
           "c" short_vector with_c
           {| Store.sc_schema := MilvusManager.collection_schema 2;
              Store.sc_index_params := MilvusManager.collection_index_params;
              Store.sc_description := "";
              Store.sc_rows := [] |} 2);
    [reflexivity | reflexivity | simpl; lia | reflexivity].
Defined.
End SearchExamples.

(** ** Further properties of the handlers *)

Module HandlerProps.
Section any_world.
Context {S : Type}.
Implicit Types (w : World S) (name : string).

Lemma insert_loop_given _model items : ∀ data w,
  Forall (λ item, is_Some (item_embedding item)) items →
  Main.insert_loop _model false items data w
  = (Return (data ++ (given_row <$> items)), w).
Proof.
  induction items as [|item items IH]; intros data w Hall; simpl.
  - by rewrite app_nil_r.
  - apply Forall_cons in Hall as [[v Hv] Hall].
    unfold bind at 1. rewrite Hv. simpl. rewrite IH by done.
    unfold given_row at 2. rewrite Hv. simpl. by rewrite <- app_assoc.
Qed.

(** X1. With [auto_embed] false and an embedding on every item, [insert]
    never calls the model (loaded or not): it sends the rows with the
    client's embeddings, in order, in one store call, and answers with
    the number of items when the store returns. *)
Theorem insert_pre_embedded_one_batch _model (c : AsyncMilvusClient S)
    name items w :
  Forall (λ item, is_Some (item_embedding item)) items →
  Main.insert _model (Some c) name {| items := items; auto_embed := false |} w
  = (match (client_insert c name (given_row <$> items) (server w)).1 with
     | Return _ => Return {| insert_count := Z.of_nat (length items) |}
     | Raise e => Raise e
     end,
     {| server := (client_insert c name (given_row <$> items) (server w)).2;
        trace := trace w ++ [EvInsert name (given_row <$> items)] |}).
Proof.
  intros Hall. unfold Main.insert. simpl. unfold bind at 1.
  rewrite insert_loop_given by done. simpl. unfold bind at 1.
  rewrite InsertProps.manager_insert_connected.
  destruct (client_insert c name (given_row <$> items) (server w)).1;
    simpl; [|done].
  unfold ret. by rewrite length_fmap.
Qed.

(** X2. Without a loaded model every handler that has something to encode
    raises [AttributeError] and leaves the world as it was: no call
    reaches the store. *)
Theorem unloaded_model_raises (client : option (AsyncMilvusClient S))
    w text texts name (req : SearchRequest) item items :
  Main.embed None {| er_text := text |} w
  = (Raise (AttributeError no_encode), w)
  ∧ Main.embed_batch None {| ebr_texts := text :: texts |} w
    = (Raise (AttributeError no_encode), w)
  ∧ Main.search None client name req w
    = (Raise (AttributeError no_encode), w)
  ∧ Main.insert None client name
      {| items := item :: items; auto_embed := true |} w
    = (Raise (AttributeError no_encode), w).
Proof. repeat split. Qed.

Lemma insert_loop_store_untouched _model auto items : ∀ data w r w1,
  Main.insert_loop _model auto items data w = (r, w1) →
  server w1 = server w
  ∧ filter (λ ev, is_store_call ev) (trace w1)
    = filter (λ ev, is_store_call ev) (trace w).
Proof.
  induction items as [|item items IH]; intros data w r w1; simpl.
  - by intros [= _ <-].
  - unfold bind at 1.
    destruct auto.
    + destruct _model as [m|]; simpl; [|by intros [= _ <-]].
      intros [Hs Ht]%IH. simpl in Hs, Ht.
      split; [done|]. rewrite Ht, filter_app.
      rewrite (filter_cons_False _ (EvEncode (text item))) by (simpl; tauto).
      by rewrite app_nil_r.
    + destruct (item_embedding item); simpl; [|by intros [= _ <-]].
      apply IH.
Qed.

(** X3. Without a client every handler that needs the store raises
    [AttributeError], named after the first method it would have called,
    and the server is untouched; [create_collection] fails on its
    [list_collections], and [insert] fails after its loop, so that with
    [auto_embed] the texts have been encoded for nothing. *)
Theorem disconnected_client_raises _model w name
    (creq : CollectionCreateRequest) (vreq : SearchByVectorRequest)
    (ireq : InsertRequest) :
  Main.create_collection None creq w
  = (Raise (AttributeError (no_attribute "list_collections")), w)
  ∧ Main.list_collections None w
    = (Raise (AttributeError (no_attribute "list_collections")), w)
  ∧ Main.drop_collection None name w
    = (Raise (AttributeError (no_attribute "drop_collection")), w)
  ∧ Main.search_by_vector None name vreq w
    = (Raise (AttributeError (no_attribute "search")), w)
  ∧ (∃ e, (Main.insert _model None name ireq w).1 = Raise e)
  ∧ server (Main.insert _model None name ireq w).2 = server w
  ∧ filter (λ ev, is_store_call ev)
      (trace (Main.insert _model None name ireq w).2)
    = filter (λ ev, is_store_call ev) (trace w).
Proof.
  do 4 (split; [reflexivity|]).
  unfold Main.insert, bind.
  destruct (Main.insert_loop _model (auto_embed ireq) (items ireq) [] w)
    as [[data|e] w1] eqn:Hloop;
    apply insert_loop_store_untouched in Hloop as [Hs Ht]; simpl; eauto.
Qed.

(** X4. Search by text is search by vector on the encoded query, after the
    one [encode] call. *)
Theorem search_is_search_by_vector_of_encoding m
    (client : option (AsyncMilvusClient S)) name (req : SearchRequest) w :
  Main.search (Some m) client name req w
  = Main.search_by_vector client name
      {| query_vector := st_encode m (query req);
         svr_limit := sr_limit req;
         svr_output_fields := sr_output_fields req |}
      {| server := server w; trace := trace w ++ [EvEncode (query req)] |}.
Proof. reflexivity. Qed.

Lemma search_hit_world hit w :
  (Main.search_hit hit w).2 = w.
Proof.
  unfold Main.search_hit, bind, Main.validate_str, Main.validate_dict.
  destruct (default (JStr "") (fh_entity hit !! "text")); simpl; try done.
  destruct (default (JStr "") (fh_entity hit !! "category")); simpl; try done.
  by destruct (default (JObj []) (fh_entity hit !! "metadata")).
Qed.

Lemma hits_loop_world found : ∀ hits w,
  (Main.hits_loop found hits w).2 = w.
Proof.
  induction found as [|hit found IH]; intros hits w; simpl; [done|].
  unfold bind at 1.
  pose proof (search_hit_world hit w) as Hw.
  destruct (Main.search_hit hit w) as [[h|e] w0]; simpl in *; subst; [|done].
  apply IH.
Qed.

Lemma search_response_world found w :
  (Main.search_response found w).2 = w.
Proof.
  unfold Main.search_response, bind at 1.
  destruct found as [|first rest]; [done|].
  pose proof (hits_loop_world first [] w) as Hw.
  by destruct (Main.hits_loop first [] w) as [[h|e] w0]; simpl in *; subst.
Qed.

(** X5. Whatever the outcome (results, a refused entity, an exception of the
    store), [search_by_vector] makes exactly one store call: a [search]
    for the single query vector, with the limit of the request, the
    output fields of the request (the three defaults only when it has
    none) and the metric COSINE; and it leaves the server as that call
    left it. *)
Theorem search_by_vector_single_store_call (c : AsyncMilvusClient S)
    name (req : SearchByVectorRequest) w :
  (Main.search_by_vector (Some c) name req w).2
  = {| server :=
         (client_search c name [query_vector req] (svr_limit req)
            (default ["text"; "category"; "metadata"] (svr_output_fields req))
            "COSINE" (server w)).2;
       trace :=
         trace w
         ++ [EvSearch name [query_vector req] (svr_limit req)
               (default ["text"; "category"; "metadata"]
                  (svr_output_fields req)) "COSINE"] |}.
Proof.
  unfold Main.search_by_vector, bind at 1, try_except.
  rewrite SearchProps.manager_search_connected.
  change MilvusManager.default_output_fields
    with ["text"; "category"; "metadata"].
  destruct (client_search c name [query_vector req] (svr_limit req)
              (default ["text"; "category"; "metadata"]
                 (svr_output_fields req)) "COSINE" (server w))
    as [[found|e] s']; simpl.
  - apply search_response_world.
  - by destruct e.
Qed.

Lemma hits_loop_shape found : ∀ hits w out w',
  Main.hits_loop found hits w = (Return out, w') →
  sh_id <$> out = (sh_id <$> hits) ++ (fh_id <$> found)
  ∧ sh_distance <$> out = (sh_distance <$> hits) ++ (fh_distance <$> found).
Proof.
  induction found as [|hit found IH]; intros hits w out w'; simpl.
  - intros [= <- _]. by rewrite !app_nil_r.
  - unfold bind at 1.
    destruct (Main.search_hit hit w) as [[h|e] w0] eqn:Hh; [|done].
    intros [Hid Hdist]%IH. rewrite Hid, Hdist, !fmap_app. simpl.
    rewrite <- !app_assoc. simpl.
    revert Hh. unfold Main.search_hit, bind, Main.validate_str,
      Main.validate_dict, ret, raise.
    destruct (default (JStr "") (fh_entity hit !! "text")); try done.
    destruct (default (JStr "") (fh_entity hit !! "category")); try done.
    destruct (default (JObj []) (fh_entity hit !! "metadata")); try done.
    by intros [= <- _].
Qed.

(** X6. When [search_by_vector] returns a response, its hits are those of
    the first result list of the store (none if the store returned no
    list), with their ids and distances in the same order, further
    lists are ignored, and [count] is the number of hits. *)
Theorem search_by_vector_hits (c : AsyncMilvusClient S) name
    (req : SearchByVectorRequest) w found s' resp w' :
  client_search c name [query_vector req] (svr_limit req)
    (default ["text"; "category"; "metadata"] (svr_output_fields req))
    "COSINE" (server w) = (Return found, s') →
  Main.search_by_vector (Some c) name req w = (Return resp, w') →
  sh_id <$> results resp = hit_id <$> default [] (head found)
  ∧ sh_distance <$> results resp = hit_distance <$> default [] (head found)
  ∧ count resp = Z.of_nat (length (results resp)).
Proof.
  intros Hfound. unfold Main.search_by_vector, bind at 1, try_except.
  rewrite SearchProps.manager_search_connected.
  change MilvusManager.default_output_fields
    with ["text"; "category"; "metadata"].
  rewrite Hfound. simpl.
  unfold Main.search_response, bind at 1.
  destruct found as [|first rest]; simpl.
  - by intros [= <- _].
  - destruct (Main.hits_loop (MilvusManager.format_hit <$> first) []
                {| server := s';
                   trace := trace w
                            ++ [EvSearch name [query_vector req]
                                  (svr_limit req)
                                  (default ["text"; "category"; "metadata"]
                                     (svr_output_fields req)) "COSINE"] |})
      as [[out|e] w0] eqn:Hloop; [|done].
    apply hits_loop_shape in Hloop as [Hid Hdist]. simpl in *.
    intros [= <- _]. simpl.
    rewrite Hid, Hdist, <- !list_fmap_compose. done.
Qed.

(** X7. A hit whose entity lacks a key gets the default for it: the empty
    string for [text] and for [category], the empty dict for
    [metadata]; a key that is there is copied; id and distance are
    those of the store's hit. *)
Theorem search_hit_defaults (hit : FormattedHit) w h w' :
  Main.search_hit hit w = (Return h, w') →
  sh_id h = fh_id hit
  ∧ sh_distance h = fh_distance hit
  ∧ JStr (sh_text h) = default (JStr "") (fh_entity hit !! "text")
  ∧ JStr (sh_category h) = default (JStr "") (fh_entity hit !! "category")
  ∧ JObj (sh_metadata h) = default (JObj []) (fh_entity hit !! "metadata").
Proof.
  unfold Main.search_hit, bind, Main.validate_str, Main.validate_dict,
    ret, raise.
  destruct (default (JStr "") (fh_entity hit !! "text")); try done.
  destruct (default (JStr "") (fh_entity hit !! "category")); try done.
  destruct (default (JObj []) (fh_entity hit !! "metadata")); try done.
  by intros [= <- _].
Qed.

(** X8. A response of [embed_batch] means: the request had texts, the model
    was loaded and was called once with all of them, the embeddings are
    what it returned, [count] is their number (not the number of
    texts), and [dimension] is the constant 1024. *)
Theorem embed_batch_response _model (req : EmbedBatchRequest) w resp w' :
  Main.embed_batch _model req w = (Return resp, w') →
  ebr_texts req ≠ []
  ∧ (∃ m, _model = Some m
          ∧ embeddings resp = st_encode_list m (ebr_texts req))
  ∧ eb_count resp = Z.of_nat (length (embeddings resp))
  ∧ eb_dimension resp = 1024
  ∧ w' = {| server := server w;
            trace := trace w ++ [EvEncodeBatch (ebr_texts req)] |}.
Proof.
  unfold Main.embed_batch.
  destruct (ebr_texts req) as [|t ts] eqn:Htexts; [done|].
  destruct _model as [m|]; [|done].
  unfold bind, EmbeddingModel.encode_batch, bind, emit, ret. simpl.
  intros [= <- <-]. simpl. rewrite list_fmap_id.
  repeat split; eauto.
Qed.

(** X9. [health] lists exactly the names its probe returned, and none when
    the probe raised; the server is as the probe left it. *)
Theorem health_collections _model (c : AsyncMilvusClient S) w :
  ∃ resp w',
    Main.health _model (Some c) w = (Return resp, w')
    ∧ Main.collections (Main.milvus resp)
      = match (client_list_collections c (server w)).1 with
        | Return names => names
        | Raise _ => []
        end
    ∧ server w' = (client_list_collections c (server w)).2.
Proof.
  unfold Main.health. simpl.
  unfold bind, try_except, MilvusManager.list_collections,
    MilvusManager.call, bind, emit, on_server, ret. simpl.
  destruct (client_list_collections c (server w)) as [[names|e] s'];
    simpl; eexists _, _; (split; [reflexivity|]); done.
Qed.
End any_world.
End HandlerProps.

Module HandlerExamples.
Import Fixture Fixture2.

Lemma insert_pre_embedded_one_batch_witness :
  Main.insert None (Some forgetful) "c"
    {| items := [item "a" (Some [half]); item "b" (Some [half; half])];
       auto_embed := false |} nowhere
  = (Return {| insert_count := 2 |},
     {| server := ();
        trace :=
          [EvInsert "c"
             (given_row
              <$> [item "a" (Some [half]); item "b" (Some [half; half])])]
     |}).
Proof.
  apply (HandlerProps.insert_pre_embedded_one_batch None forgetful "c"
           [item "a" (Some [half]); item "b" (Some [half; half])] nowhere).
  repeat constructor; simpl; eauto.
Defined.

Lemma search_by_vector_hits_witness :
  sh_id <$> results
              {| results :=
                   [ {| sh_id := 7; sh_distance := half; sh_text := "";
                        sh_category := ""; sh_metadata := [] |};
                     {| sh_id := 3; sh_distance := 1%float; sh_text := "a";
                        sh_category := "k";
                        sh_metadata := [("n", JInt 1)] |} ];
                 count := 2 |}
  = [7; 3].
Proof.
  apply (HandlerProps.search_by_vector_hits answering "c" by_vector nowhere
           [ [ {| hit_id := 7; hit_distance := half; hit_entity := ∅ |};
               {| hit_id := 3; hit_distance := 1%float;
                  hit_entity :=
                    {[ "text" := JStr "a"; "category" := JStr "k";
                       "metadata" := JObj [("n", JInt 1)] ]} |} ];
             [ {| hit_id := 9; hit_distance := 0%float; hit_entity := ∅ |} ] ]
           ()
           {| results :=
                [ {| sh_id := 7; sh_distance := half; sh_text := "";
                     sh_category := ""; sh_metadata := [] |};
                  {| sh_id := 3; sh_distance := 1%float; sh_text := "a";
                     sh_category := "k"; sh_metadata := [("n", JInt 1)] |} ];
              count := 2 |}
           {| server := ();
              trace := [EvSearch "c" [[half; half]] 5
                          ["text"; "category"; "metadata"] "COSINE"] |});
    reflexivity.
Defined.

Lemma search_hit_defaults_witness :
  let hit := {| fh_id := 7; fh_distance := half; fh_entity := ∅ |} in
  let h := {| sh_id := 7; sh_distance := half; sh_text := "";
              sh_category := ""; sh_metadata := [] |} in
  sh_id h = fh_id hit
  ∧ sh_distance h = fh_distance hit
  ∧ JStr (sh_text h) = default (JStr "") (fh_entity hit !! "text")
  ∧ JStr (sh_category h) = default (JStr "") (fh_entity hit !! "category")
  ∧ JObj (sh_metadata h) = default (JObj []) (fh_entity hit !! "metadata").
Proof.
  intros hit h.
  apply (HandlerProps.search_hit_defaults hit nowhere h nowhere).
  reflexivity.
Defined.

Lemma embed_batch_response_witness :
  ["a"; "b"] ≠ []
  ∧ (∃ m, Some model = Some m
          ∧ [[half; 1%float]; [half; 0%float]] = st_encode_list m ["a"; "b"])
  ∧ 2 = Z.of_nat (length [[half; 1%float]; [half; 0%float]])
  ∧ 1024 = 1024
  ∧ {| server := (); trace := [EvEncodeBatch ["a"; "b"]] |}
    = {| server := server nowhere;
         trace := trace nowhere ++ [EvEncodeBatch ["a"; "b"]] |}.
Proof.
  apply (HandlerProps.embed_batch_response (Some model)
           {| ebr_texts := ["a"; "b"] |} nowhere
           {| embeddings := [[half; 1%float]; [half; 0%float]];
              eb_dimension := 1024; eb_count := 2 |}
           {| server := (); trace := [EvEncodeBatch ["a"; "b"]] |}).
  reflexivity.
Defined.
End HandlerExamples.

(** ** The collection lifecycle on the store *)

Module LifecycleProps.
Section on_store.
Variable b : Store.Behaviour.
Abbreviation cl := (Some (Store.client b)).
Implicit Types (w : World (gmap string Store.Stored)) (name : string).

(** X10. [create_collection] never changes a collection the store already
    has, whatever name, dimension and description are requested: its
    schema, description and rows stay. *)
Theorem create_collection_keeps_existing (req : CollectionCreateRequest)
    w name stored :
  server w !! name = Some stored →
  server (Main.create_collection cl req w).2 !! name = Some stored.
Proof.
  intros Hstored. unfold Main.create_collection.
  destruct (server w !! ccr_name req) as [other|] eqn:Hreq.
  - rewrite CollectionProps.create_existing by by rewrite Hreq. done.
  - rewrite CollectionProps.create_fresh by done. simpl.
    rewrite lookup_insert_ne; [done|]. intros Heq. rewrite Heq in Hreq.
    congruence.
Qed.

(** X11. Creating a collection the store does not have and dropping it again
    gives the store back as it was, with the answers "created" and
    "dropped" and three store calls. *)
Theorem create_then_drop_restores (req : CollectionCreateRequest) w :
  server w !! ccr_name req = None →
  ∃ w1 w2,
    Main.create_collection cl req w
    = (Return {| collection := ccr_name req; status := "created" |}, w1)
    ∧ Main.drop_collection cl (ccr_name req) w1
      = (Return {| collection := ccr_name req; status := "dropped" |}, w2)
    ∧ server w2 = server w
    ∧ trace w2
      = trace w
        ++ [EvListCollections;
            EvCreateCollection (ccr_name req)
              (MilvusManager.collection_schema (ccr_dimension req))
              MilvusManager.collection_index_params (ccr_description req);
            EvDropCollection (ccr_name req)].
Proof.
  intros Hfresh. unfold Main.create_collection.
  rewrite CollectionProps.create_fresh by done.
  eexists _, _. split; [reflexivity|].
  unfold Main.drop_collection, MilvusManager.drop_collection,
    MilvusManager.call, bind, emit, on_server, ret. simpl.
  unfold Store.drop_collection. rewrite lookup_insert_eq. simpl.
  split; [reflexivity|]. simpl.
  split; [by apply delete_insert_id|].
  by rewrite <- app_assoc.
Qed.
End on_store.
End LifecycleProps.

(** ** Start-up *)

Module StartupProps.
Import Startup.
Section startup.
Context {E S : Type}.
Variable new_SentenceTransformer :
  string → E → result SentenceTransformer * E.
Variable new_AsyncMilvusClient :
  string → option string → E → result (AsyncMilvusClient S) * E.
Variable getenv : E → string → option string.
Variable load_dotenv : E → E.
Implicit Types (p : Process E S).

(** X12. When [EmbeddingModel.get_instance] returns for the first time, the
    model is loaded, at most one [SentenceTransformer] was constructed,
    and every later call returns the same instance without constructing
    anything or changing the process. *)
Theorem get_instance_loads_model_once p instance p1 :
  EmbeddingModel_instance p = None →
  EmbeddingModel_get_instance new_SentenceTransformer p
  = (Return instance, p1) →
  is_Some (EmbeddingModel_model p1)
  ∧ EmbeddingModel_instance p1 = Some instance
  ∧ (length (constructed p1) ≤ length (constructed p) + 1)%nat
  ∧ EmbeddingModel_get_instance new_SentenceTransformer p1
    = (Return instance, p1).
Proof.
  intros Hnone. unfold EmbeddingModel_get_instance, EmbeddingModel_init.
  rewrite Hnone.
  destruct (EmbeddingModel_model p) as [m|] eqn:Hm.
  - intros [= <- <-]. simpl. rewrite Hm. repeat split; eauto. lia.
  - destruct (new_SentenceTransformer EmbeddingModel.MODEL_NAME (outside p))
      as [[m|exc] e]; [|done].
    intros [= <- <-]. simpl. repeat split; eauto.
    rewrite length_app. simpl. lia.
Qed.

(** X13. When the model cannot be constructed, [get_instance] raises the
    constructor's exception and assigns nothing: [_instance] and
    [_model] stay [None], so the next call constructs again, and
    returns if that attempt succeeds. *)
Theorem get_instance_failure_is_retried p exc e :
  EmbeddingModel_instance p = None →
  EmbeddingModel_model p = None →
  new_SentenceTransformer EmbeddingModel.MODEL_NAME (outside p)
  = (Raise exc, e) →
  ∃ p1,
    EmbeddingModel_get_instance new_SentenceTransformer p = (Raise exc, p1)
    ∧ EmbeddingModel_instance p1 = None
    ∧ EmbeddingModel_model p1 = None
    ∧ outside p1 = e
    ∧ constructed p1
      = constructed p ++ [NewSentenceTransformer EmbeddingModel.MODEL_NAME]
    ∧ ∀ m e',
        new_SentenceTransformer EmbeddingModel.MODEL_NAME e = (Return m, e') →
        ∃ p2,
          EmbeddingModel_get_instance new_SentenceTransformer p1
          = (Return (), p2)
          ∧ EmbeddingModel_model p2 = Some m
          ∧ constructed p2
            = constructed p
              ++ [NewSentenceTransformer EmbeddingModel.MODEL_NAME;
                  NewSentenceTransformer EmbeddingModel.MODEL_NAME].
Proof.
  intros Hinst Hmodel Hfail.
  unfold EmbeddingModel_get_instance, EmbeddingModel_init.
  rewrite Hinst, Hmodel, Hfail. eexists. split; [reflexivity|]. simpl.
  do 4 (split; [done|]).
  intros m e' Hok. rewrite Hok. eexists. split; [reflexivity|]. simpl.
  split; [done|]. by rewrite <- app_assoc.
Qed.

(** X14. [MilvusManager.get_instance] assigns [_instance] before it connects:
    when the client cannot be constructed the exception is raised, but
    the manager without client stays in [_instance], and every later
    call returns that manager without trying to connect again. *)
Theorem manager_failed_connect_is_kept p exc e :
  MilvusManager_instance p = None →
  new_AsyncMilvusClient (connect_kwargs getenv (outside p)).1
    (connect_kwargs getenv (outside p)).2 (outside p) = (Raise exc, e) →
  ∃ p1,
    MilvusManager_get_instance new_AsyncMilvusClient getenv p = (Raise exc, p1)
    ∧ MilvusManager_instance p1 = Some None
    ∧ MilvusManager_get_instance new_AsyncMilvusClient getenv p1
      = (Return None, p1)
    ∧ constructed p1
      = constructed p
        ++ [NewAsyncMilvusClient (connect_kwargs getenv (outside p)).1
              (connect_kwargs getenv (outside p)).2].
Proof.
  intros Hnone Hfail.
  unfold MilvusManager_get_instance, MilvusManager_connect.
  rewrite Hnone.
  cbn [outside constructed EmbeddingModel_instance EmbeddingModel_model
         MilvusManager_instance].
  destruct (connect_kwargs getenv (outside p)) as [uri token].
  cbn [fst snd] in Hfail |- *.
  rewrite Hfail. eexists. split; [reflexivity|]. done.
Qed.

(** X15. [connect] constructs one client: with the uri of the environment or
    the local default, and with a token exactly when the environment
    has a non-empty one; an empty token is never passed on. *)
Theorem connect_arguments p :
  ∃ uri token,
    constructed (MilvusManager_connect new_AsyncMilvusClient getenv p).2
    = constructed p ++ [NewAsyncMilvusClient uri token]
    ∧ uri = default "http://localhost:19530" (getenv (outside p) "MILVUS_URI")
    ∧ token ≠ Some ""
    ∧ (token = None
       ↔ getenv (outside p) "MILVUS_TOKEN" = None
         ∨ getenv (outside p) "MILVUS_TOKEN" = Some "")
    ∧ ∀ t, token = Some t → getenv (outside p) "MILVUS_TOKEN" = Some t.
Proof.
  unfold MilvusManager_connect, connect_kwargs.
  destruct (getenv (outside p) "MILVUS_TOKEN") as [t|] eqn:Ht; simpl.
  - destruct (decide (t = "")) as [->|Hne].
    + simpl.
      destruct (new_AsyncMilvusClient _ None (outside p)) as [[c|exc] e];
        simpl; eexists _, _; (split; [reflexivity|]);
        repeat split; eauto; done.
    + rewrite bool_decide_eq_false_2 by done.
      destruct (new_AsyncMilvusClient _ (Some t) (outside p)) as [[c|exc] e];
        simpl; eexists _, _; (split; [reflexivity|]);
        (split; [done|]); (split; [congruence|]);
        (split; [|congruence]);
        (split; [done|]); intros [|]; congruence.
  - destruct (new_AsyncMilvusClient _ None (outside p)) as [[c|exc] e];
      simpl; eexists _, _; (split; [reflexivity|]);
      repeat split; eauto; done.
Qed.

(** X16. Start-up of a fresh process. If it returns, the model is loaded and
    there is a client, after exactly one [SentenceTransformer] and then
    one [AsyncMilvusClient] were constructed. If it raises, either the
    model failed and no client was constructed, or the client failed
    after the model was loaded and the manager without client stays. *)
Theorem lifespan_startup_outcomes (e : E) :
  match lifespan_startup new_SentenceTransformer new_AsyncMilvusClient
          getenv load_dotenv (initial e) with
  | (Return app, p) =>
      EmbeddingModel.is_loaded (state_model app) = true
      ∧ is_Some (state_milvus app)
      ∧ MilvusManager_instance p = Some (state_milvus app)
      ∧ ∃ uri token,
          constructed p
          = [NewSentenceTransformer EmbeddingModel.MODEL_NAME;
             NewAsyncMilvusClient uri token]
  | (Raise exc, p) =>
      (constructed p = [NewSentenceTransformer EmbeddingModel.MODEL_NAME]
       ∧ EmbeddingModel_model p = None
       ∧ MilvusManager_instance p = None)
      ∨ (is_Some (EmbeddingModel_model p)
         ∧ MilvusManager_instance p = Some None
         ∧ ∃ uri token,
             constructed p
             = [NewSentenceTransformer EmbeddingModel.MODEL_NAME;
                NewAsyncMilvusClient uri token])
  end.
Proof.
  unfold lifespan_startup, initial, EmbeddingModel_get_instance,
    EmbeddingModel_init.
  cbn [outside constructed EmbeddingModel_instance EmbeddingModel_model
         MilvusManager_instance].
  destruct (new_SentenceTransformer EmbeddingModel.MODEL_NAME (load_dotenv e))
    as [[m|exc] e1]; [|left; done].
  unfold MilvusManager_get_instance, MilvusManager_connect.
  cbn [outside constructed EmbeddingModel_instance EmbeddingModel_model
         MilvusManager_instance].
  destruct (connect_kwargs getenv e1) as [uri token].
  destruct (new_AsyncMilvusClient uri token e1) as [[c|exc] e2]; simpl.
  - repeat split; eauto.
  - right. repeat split; eauto.
Qed.
End startup.
End StartupProps.

Module StartupExamples.
Import Fixture Fixture2 Startup.

Lemma create_collection_keeps_existing_witness :
  server
    (Main.create_collection milvus
       {| ccr_name := "c"; ccr_dimension := 768; ccr_description := "x" |}
       with_c).2 !! "c"
  = Some {| Store.sc_schema := MilvusManager.collection_schema 2;
            Store.sc_index_params := MilvusManager.collection_index_params;
            Store.sc_description := "";
            Store.sc_rows := [] |}.
Proof.
  apply (LifecycleProps.create_collection_keeps_existing Store.milvus_like
           {| ccr_name := "c"; ccr_dimension := 768; ccr_description := "x" |}
           with_c "c").
  reflexivity.
Defined.

Lemma create_then_drop_restores_witness :
  ∃ w1 w2,
    Main.create_collection milvus
      {| ccr_name := "d"; ccr_dimension := 4; ccr_description := "" |} with_c
    = (Return {| collection := "d"; status := "created" |}, w1)
    ∧ Main.drop_collection milvus "d" w1
      = (Return {| collection := "d"; status := "dropped" |}, w2)
    ∧ server w2 = server with_c
    ∧ trace w2
      = trace with_c
        ++ [EvListCollections;
            EvCreateCollection "d" (MilvusManager.collection_schema 4)
              MilvusManager.collection_index_params "";
            EvDropCollection "d"].
Proof.
  apply (LifecycleProps.create_then_drop_restores Store.milvus_like
           {| ccr_name := "d"; ccr_dimension := 4; ccr_description := "" |}
           with_c).
  reflexivity.
Defined.

Lemma get_instance_loads_model_once_witness :
  let p := initial (S := ()) ready in
  let p1 : Process Outside () :=
    {| EmbeddingModel_instance := Some ();
       EmbeddingModel_model := Some model;
       MilvusManager_instance := None;
       outside := ready;
       constructed := [NewSentenceTransformer EmbeddingModel.MODEL_NAME] |} in
  is_Some (EmbeddingModel_model p1)
  ∧ EmbeddingModel_instance p1 = Some ()
  ∧ (length (constructed p1) ≤ length (constructed p) + 1)%nat
  ∧ EmbeddingModel_get_instance new_SentenceTransformer p1 = (Return (), p1).
Proof.
  intros p p1.
  apply (StartupProps.get_instance_loads_model_once new_SentenceTransformer
           p () p1); reflexivity.
Defined.

Lemma get_instance_failure_is_retried_witness :
  ∃ p1,
    EmbeddingModel_get_instance new_SentenceTransformer
      (initial (S := ()) no_files)
    = (Raise (ConnectionError "cannot download"), p1)
    ∧ EmbeddingModel_instance p1 = None
    ∧ EmbeddingModel_model p1 = None
    ∧ outside p1 = files_now
    ∧ constructed p1
      = constructed (initial (S := ()) no_files)
        ++ [NewSentenceTransformer EmbeddingModel.MODEL_NAME]
    ∧ ∀ m e',
        new_SentenceTransformer EmbeddingModel.MODEL_NAME files_now
        = (Return m, e') →
        ∃ p2,
          EmbeddingModel_get_instance new_SentenceTransformer p1
          = (Return (), p2)
          ∧ EmbeddingModel_model p2 = Some m
          ∧ constructed p2
            = constructed (initial (S := ()) no_files)
              ++ [NewSentenceTransformer EmbeddingModel.MODEL_NAME;
                  NewSentenceTransformer EmbeddingModel.MODEL_NAME].
Proof.
  apply (StartupProps.get_instance_failure_is_retried new_SentenceTransformer
           (initial (S := ()) no_files) (ConnectionError "cannot download")
           files_now); reflexivity.
Defined.

Lemma manager_failed_connect_is_kept_witness :
  ∃ p1,
    MilvusManager_get_instance new_AsyncMilvusClient getenv (initial bad_uri)
    = (Raise (ConnectionError "no uri"), p1)
    ∧ MilvusManager_instance p1 = Some None
    ∧ MilvusManager_get_instance new_AsyncMilvusClient getenv p1
      = (Return None, p1)
    ∧ constructed p1
      = constructed (initial (S := ()) bad_uri)
        ++ [NewAsyncMilvusClient
              (connect_kwargs getenv
                 (outside (initial (S := ()) bad_uri))).1
              (connect_kwargs getenv
                 (outside (initial (S := ()) bad_uri))).2].
Proof.
  apply (StartupProps.manager_failed_connect_is_kept new_AsyncMilvusClient
           getenv (initial bad_uri) (ConnectionError "no uri") bad_uri);
    reflexivity.
Defined.
End StartupExamples.

(** ** Batch encoding *)

Module ModelProps.
Section batch.
Context {S : Type}.

(** C9. On the model of the specification, [encode_batch] returns one
    vector per text, in the order of the texts, and the vector at every
    index is the one [encode] returns for the text at that index. *)
Theorem encode_batch_is_encode_per_text (embed_text : string → vector)
    (texts : list string) (w : World S) :
  ∃ vectors w1,
    EmbeddingModel.encode_batch (Some (mapped_model embed_text)) texts w
    = (Return vectors, w1)
    ∧ length vectors = length texts
    ∧ ∀ i t, texts !! i = Some t →
        ∃ v w2,
          EmbeddingModel.encode (Some (mapped_model embed_text)) t w
          = (Return v, w2)
          ∧ vectors !! i = Some v.
Proof.
  eexists _, _. split; [reflexivity|]. simpl.
  split; [by rewrite list_fmap_id, length_fmap|].
  intros i t Hi. eexists _, _. split; [reflexivity|].
  by rewrite list_fmap_id, list_lookup_fmap, Hi.
Qed.
End batch.
End ModelProps.
